(** * nl2sql: the generate-execute-repair loop of [nl2sql.py]

    A shallow embedding of [DatabaseManager.get_schema],
    [DatabaseManager.execute_sql], [SQLGenerator._generate_with_openai] and
    [SQLGenerator.generate_sql].  The two external collaborators, the
    [sqlite3] connection and the OpenAI chat client, are interfaces
    (type classes); every call the program makes to them threads their
    state explicitly. *)

From Stdlib Require Import ZArith List Bool Ascii String Lia.
From Stdlib Require Import Numbers.DecimalString.
Import ListNotations.

Open Scope string_scope.
Open Scope Z_scope.

(** ** Python [str] operations used by the program

    A [str] is modelled as a [string] of code points below 256. *)
Module PyStr.

(** [str.isspace] on one character (code points below 256): the ASCII
    white space 9-13 and 32, the separators 28-31, NEL and NBSP. *)
Definition isspace (c : ascii) : bool :=
  let n := nat_of_ascii c in
  ((9 <=? n) && (n <=? 13) || (28 <=? n) && (n <=? 32)
   || (n =? 133) || (n =? 160))%nat.

Definition is_empty (s : string) : bool :=
  match s with EmptyString => true | String _ _ => false end.

Fixpoint lstrip (s : string) : string :=
  match s with
  | EmptyString => EmptyString
  | String c s' => if isspace c then lstrip s' else s
  end.

Fixpoint rstrip (s : string) : string :=
  match s with
  | EmptyString => EmptyString
  | String c s' =>
      let r := rstrip s' in
      if is_empty r && isspace c then EmptyString else String c r
  end.

(** [s.strip()] *)
Definition strip (s : string) : string := rstrip (lstrip s).

(** [s.startswith(p)] *)
Definition startswith (s p : string) : bool := String.prefix p s.

(** [s[n:]] for [0 <= n] *)
Fixpoint drop (n : nat) (s : string) : string :=
  match n, s with
  | O, _ => s
  | S _, EmptyString => EmptyString
  | S n', String _ s' => drop n' s'
  end.

(** [s.split(sep)] for a non-empty [sep]: the pieces between the
    non-overlapping occurrences of [sep], found from the left.  [skip]
    counts the characters of a matched separator still to pass over. *)
Fixpoint split_from (sep : string) (skip : nat) (s : string) : list string :=
  match s with
  | EmptyString => [EmptyString]
  | String c s' =>
      match skip with
      | S k => split_from sep k s'
      | O =>
          if String.prefix sep s
          then EmptyString :: split_from sep (pred (String.length sep)) s'
          else match split_from sep O s' with
               | p :: ps => String c p :: ps
               | [] => [String c EmptyString]
               end
      end
  end.

Definition split (s sep : string) : list string := split_from sep O s.

(** [sep.join(items)] for items that are all [str] *)
Fixpoint join (sep : string) (items : list string) : string :=
  match items with
  | [] => EmptyString
  | [x] => x
  | x :: rest => x ++ sep ++ join sep rest
  end.

(** [sub in s] *)
Fixpoint contains (sub s : string) : bool :=
  String.prefix sub s ||
  match s with
  | EmptyString => false
  | String _ s' => contains sub s'
  end.

(** Every character of [s] is white space ([s] may be empty). *)
Fixpoint all_space (s : string) : bool :=
  match s with
  | EmptyString => true
  | String c s' => isspace c && all_space s'
  end.

(** Python truthiness of an [Optional[str]] *)
Definition truthy (o : option string) : bool :=
  match o with
  | None => false
  | Some s => negb (is_empty s)
  end.

Definition str_of_nat (n : nat) : string :=
  NilZero.string_of_uint (Nat.to_uint n).

End PyStr.

Definition newline : string := String (ascii_of_nat 10) EmptyString.

(** The fence marker of a code block. *)
Definition fence : string := "```".

(** The prefixes tried, in order, by the loop at the end of
    [_generate_with_openai]. *)
Definition prefixes : list string := ["```sql"; "```"].

(** One iteration of [for prefix in ...: if sql.startswith(prefix): ...] *)
Definition strip_prefix (sql prefix : string) : string :=
  if PyStr.startswith sql prefix
  then PyStr.strip
         (hd EmptyString
             (PyStr.split (PyStr.drop (String.length prefix) sql) fence))
  else sql.

(** The post-processing of the model's answer:
    [content.strip()] followed by the loop over [prefixes]. *)
Definition clean_sql (content : string) : string :=
  fold_left strip_prefix prefixes (PyStr.strip content).

(** ** Python values and exceptions *)

(** The values [sqlite3] puts in a row.  A float and a [bytes] object are
    kept as the text [str()] gives for them: the program only ever formats
    them. *)
Inductive value :=
| PyNone
| PyInt (n : Z)
| PyFloat (text : string)
| PyStr (s : string)
| PyBytes (text : string).

(** [str(v)], which is also what an f-string field [{v}] produces. *)
Definition format (v : value) : string :=
  match v with
  | PyNone => "None"
  | PyInt n => NilZero.string_of_int (Z.to_int n)
  | PyFloat t => t
  | PyStr s => s
  | PyBytes t => t
  end.

(** [type(v).__name__] *)
Definition type_name (v : value) : string :=
  match v with
  | PyNone => "NoneType"
  | PyInt _ => "int"
  | PyFloat _ => "float"
  | PyStr _ => "str"
  | PyBytes _ => "bytes"
  end.

(** The outcome of evaluating an expression: a value, or an exception,
    which the program only ever observes through [str(e)]. *)
Inductive result (A : Type) :=
| Ok (a : A)
| Raise (msg : string).
Arguments Ok {A} a.
Arguments Raise {A} msg.

Definition row := list value.

(** What a cursor holds once [execute] and [fetchall] are done: nothing
    for a statement without a result set ([description] is [None] and
    [fetchall()] is the empty list), or the column names and the rows. *)
Definition result_set := option (list string * list row).

Definition description (c : result_set) : option (list string) :=
  option_map fst c.

Definition fetchall (c : result_set) : list row :=
  match c with
  | None => []
  | Some (_, rows) => rows
  end.

(** ** The two external collaborators *)

(** The [sqlite3] connection: [self.conn.cursor()], and
    [cursor.execute(sql)] followed by [cursor.fetchall()], which may change
    the database whether it raises or not. *)
Class Sqlite3 (conn : Type) := {
  cursor : conn -> result unit;
  execute : conn -> string -> result result_set * conn
}.

(** The keyword arguments of [client.chat.completions.create]. *)
Record request := {
  model : string;
  messages : list (string * string);
  temperature : Z;
  max_tokens : Z
}.

(** The chat client: one answer per call, the [content] of each of the
    response's [choices] ([None] when the message carries no text). *)
Class ChatClient (service : Type) := {
  create : service -> request -> result (list (option string)) * service
}.

(** ** The schema and the result of a run *)

(** One entry of the list [get_schema] returns:
    [{'table': ..., 'columns': [...], 'types': [...]}]. *)
Record table_info := {
  table : value;
  columns : list value;
  types : list value
}.

Definition Schema := list table_info.

(** The triple [execute_sql] returns: [(success, results, error)]. *)
Definition execution := (bool * option (list string * list row) * option string)%type.

(** The dictionary [generate_sql] returns: with ['success': True] it has
    the keys [sql], [results] and [attempts], with ['success': False] the
    keys [error] and [attempts]. *)
Inductive LoopResult :=
| Succeeded (sql : string) (results : option (list string * list row)) (attempts : Z)
| Failed (error : option string) (attempts : Z).

Definition attempts (r : LoopResult) : Z :=
  match r with
  | Succeeded _ _ n => n
  | Failed _ n => n
  end.

(** The calls of one run, in the order they return: a record kept beside
    the program to state what it did, not a value the program reads. *)
Inductive call :=
| GetSchema (r : result Schema)
| Create (req : request) (r : result (list (option string)))
| Generate (is_retry : bool) (last_error : option string) (r : result string)
| ExecuteSql (sql : string) (r : execution).

Definition is_get_schema (c : call) : bool :=
  match c with GetSchema _ => true | _ => false end.

Definition is_create (c : call) : bool :=
  match c with Create _ _ => true | _ => false end.

Definition is_generate (c : call) : bool :=
  match c with Generate _ _ _ => true | _ => false end.

Definition is_execute_sql (c : call) : bool :=
  match c with ExecuteSql _ _ => true | _ => false end.

Definition count (p : call -> bool) (t : list call) : Z :=
  Z.of_nat (List.length (filter p t)).

(** ** The prompts *)

Definition indent : string := "            ".

Definition system_content : string :=
  "You are a SQL expert that converts questions to accurate SQL queries.".

Definition first_prompt (question schema_info : string) : string :=
  newline ++ indent
  ++ "Convert this natural language question into a SQL query for SQLite:"
  ++ newline ++ indent ++ "Question: " ++ question
  ++ newline ++ indent ++ "Database schema:"
  ++ newline ++ indent ++ schema_info
  ++ newline ++ indent
  ++ newline ++ indent
  ++ "Return ONLY the SQL query with no additional explanation or formatting."
  ++ newline ++ indent.

Definition repair_prompt (last_error question schema_info : string) : string :=
  newline ++ indent
  ++ "The previous SQL query failed with error: " ++ last_error
  ++ newline ++ indent
  ++ "Please correct the SQL query for this question: " ++ question
  ++ newline ++ indent ++ "Database schema:"
  ++ newline ++ indent ++ schema_info
  ++ newline ++ indent
  ++ newline ++ indent
  ++ "Return ONLY the SQL query with no additional explanation or formatting."
  ++ newline ++ indent.

(** [if is_retry and last_error: ... else: ...] *)
Definition build_prompt (question : string) (is_retry : bool)
           (last_error : option string) (schema_info : string) : string :=
  if is_retry && PyStr.truthy last_error
  then repair_prompt (match last_error with Some e => e | None => "None" end)
                     question schema_info
  else first_prompt question schema_info.

Definition chat_request (prompt : string) : request :=
  {| model := "gpt-4o-mini";
     messages := [("system", system_content); ("user", prompt)];
     temperature := 0;
     max_tokens := 200 |}.

(** [', '.join(items)] on a list of values: a [TypeError] at the first
    item that is not a [str]. *)
Fixpoint join_values (i : nat) (items : list value) : result (list string) :=
  match items with
  | [] => Ok []
  | PyStr s :: rest =>
      match join_values (S i) rest with
      | Ok l => Ok (s :: l)
      | Raise m => Raise m
      end
  | v :: _ =>
      Raise ("sequence item " ++ PyStr.str_of_nat i
             ++ ": expected str instance, " ++ type_name v ++ " found")
  end.

(** [f"Table {table['table']} columns: {', '.join(table['columns'])}"] *)
Definition table_line (t : table_info) : result string :=
  match join_values 0 (columns t) with
  | Ok l => Ok ("Table " ++ format (table t) ++ " columns: " ++ PyStr.join ", " l)
  | Raise m => Raise m
  end.

(** [[f"Table ..." for table in schema]] *)
Fixpoint table_lines (s : Schema) : result (list string) :=
  match s with
  | [] => Ok []
  | t :: rest =>
      match table_line t with
      | Ok l =>
          match table_lines rest with
          | Ok ls => Ok (l :: ls)
          | Raise m => Raise m
          end
      | Raise m => Raise m
      end
  end.

(** The value of [schema_info] in [_generate_with_openai]. *)
Definition schema_info_of (s : Schema) : result string :=
  match table_lines s with
  | Ok ls => Ok (PyStr.join newline ls)
  | Raise m => Raise m
  end.

(** [response.choices[0].message.content], on which [strip] is called *)
Definition first_content (choices : list (option string)) : result string :=
  match choices with
  | [] => Raise "list index out of range"
  | None :: _ => Raise "'NoneType' object has no attribute 'strip'"
  | Some content :: _ => Ok content
  end.

(** What [_generate_with_openai] makes of the client's answer. *)
Definition answer_of (r : result (list (option string))) : result string :=
  match r with
  | Raise m => Raise m
  | Ok choices =>
      match first_content choices with
      | Ok content => Ok (clean_sql content)
      | Raise m => Raise m
      end
  end.

(** ** The program *)

Section Program.

Context {Conn Service : Type} `{Sqlite3 Conn} `{ChatClient Service}.

(** The state outside the program: [self.db.conn] and the global
    [client]. *)
Record World := {
  conn : Conn;
  client : Service
}.

(** A computation ends with a value or an exception, leaves a world
    behind and has made some calls. *)
Record Run (A : Type) := {
  returned : result A;
  world : World;
  calls : list call
}.
Arguments returned {A} r.
Arguments world {A} r.
Arguments calls {A} r.

Definition M (A : Type) : Type := World -> Run A.

Definition ret {A} (a : A) : M A :=
  fun w => {| returned := Ok a; world := w; calls := [] |}.

Definition raise {A} (msg : string) : M A :=
  fun w => {| returned := Raise msg; world := w; calls := [] |}.

Definition after {A} (t : list call) (r : Run A) : Run A :=
  {| returned := returned r; world := world r; calls := (t ++ calls r)%list |}.

Definition bind {A B} (m : M A) (f : A -> M B) : M B :=
  fun w =>
    let r := m w in
    match returned r with
    | Ok a => after (calls r) (f a (world r))
    | Raise e => {| returned := Raise e; world := world r; calls := calls r |}
    end.

(** [try: body  except Exception as e: handler(str(e))] *)
Definition try_except {A} (body : M A) (handler : string -> M A) : M A :=
  fun w =>
    let r := body w in
    match returned r with
    | Ok _ => r
    | Raise e => after (calls r) (handler e (world r))
    end.

(** Runs [m] and records the calls [ev] makes of its outcome. *)
Definition traced {A} (ev : result A -> list call) (m : M A) : M A :=
  fun w =>
    let r := m w in
    {| returned := returned r; world := world r;
       calls := (calls r ++ ev (returned r))%list |}.

Notation "x <- m ;; k" := (bind m (fun x => k))
  (at level 61, m at next level, right associativity).
Notation "' p <- m ;; k" := (bind m (fun x => match x with p => k end))
  (at level 61, p pattern, m at next level, right associativity).

Definition lift {A} (r : result A) : M A :=
  fun w => {| returned := r; world := w; calls := [] |}.

(** [self.conn.cursor()] *)
Definition conn_cursor : M unit :=
  fun w => {| returned := cursor (conn w); world := w; calls := [] |}.

(** [cursor.execute(sql)] and the [cursor.fetchall()] that follows it *)
Definition cursor_execute (sql : string) : M result_set :=
  fun w =>
    let '(r, c) := execute (conn w) sql in
    {| returned := r; world := {| conn := c; client := client w |};
       calls := [] |}.

(** [client.chat.completions.create(...)] *)
Definition chat_completions_create (req : request) : M (list (option string)) :=
  traced (fun r => [Create req r])
    (fun w =>
       let '(r, s) := create (client w) req in
       {| returned := r; world := {| conn := conn w; client := s |};
          calls := [] |}).

(** [t[i]] on a tuple *)
Definition item (t : row) (i : nat) : M value :=
  match nth_error t i with
  | Some v => ret v
  | None => raise "tuple index out of range"
  end.

(** [[f(x) for x in l]] *)
Fixpoint comprehension {A B} (f : A -> M B) (l : list A) : M (list B) :=
  match l with
  | [] => ret []
  | x :: rest =>
      y <- f x ;;
      ys <- comprehension f rest ;;
      ret (y :: ys)
  end.

(** The body of [for table in tables: ...] in [get_schema], threaded
    through the tables with the list [schema] built so far. *)
Fixpoint for_table (tables : list row) (schema : Schema) : M Schema :=
  match tables with
  | [] => ret schema
  | tbl :: rest =>
      table_name <- item tbl 0 ;;
      cur <- cursor_execute ("PRAGMA table_info(" ++ format table_name ++ ")") ;;
      let cols := fetchall cur in
      names <- comprehension (fun col => item col 1) cols ;;
      tys <- comprehension (fun col => item col 2) cols ;;
      for_table rest
        (schema ++ [{| table := table_name; columns := names; types := tys |}])%list
  end.

(** [DatabaseManager.get_schema] *)
Definition get_schema : M Schema :=
  traced (fun r => [GetSchema r])
    (_ <- conn_cursor ;;
     cur <- cursor_execute "SELECT name FROM sqlite_master WHERE type='table'" ;;
     let tables := fetchall cur in
     for_table tables []).

(** [DatabaseManager.execute_sql]: the whole body is inside [try], and
    [except Exception as e] returns [(False, None, str(e))]. *)
Definition execute_sql (sql : string) : M execution :=
  traced (fun r => match r with Ok e => [ExecuteSql sql e] | Raise _ => [] end)
    (try_except
       (_ <- conn_cursor ;;
        cur <- cursor_execute sql ;;
        let results := fetchall cur in
        let columns :=
          match description cur with
          | Some (d :: ds) => d :: ds
          | _ => []
          end in
        ret (true, Some (columns, results), None))
       (fun e => ret (false, None, Some e))).

(** [SQLGenerator._generate_with_openai] *)
Definition _generate_with_openai (question : string) (is_retry : bool)
           (last_error : option string) : M string :=
  traced (fun r => [Generate is_retry last_error r])
    (schema <- get_schema ;;
     schema_info <- lift (schema_info_of schema) ;;
     let prompt := build_prompt question is_retry last_error schema_info in
     choices <- chat_completions_create (chat_request prompt) ;;
     content <- lift (first_content choices) ;;
     ret (clean_sql content)).

(** What one pass through the body of the [while] loop leaves: the
    [return] of a dictionary, or the loop variables for the next test. *)
Inductive step :=
| Return (r : LoopResult)
| Continue (retry_count : Z) (last_error : option string).

(** The body of [while retry_count <= max_retries:] in [generate_sql].
    The [print] calls are left out. *)
Definition attempt (question : string) (retry_count : Z)
           (last_error : option string) : M step :=
  try_except
    (sql <- _generate_with_openai question (0 <? retry_count) last_error ;;
     '(success, results, error) <- execute_sql sql ;;
     if success : bool
     then ret (Return (Succeeded sql results (retry_count + 1)))
     else ret (Continue (retry_count + 1) error))
    (fun e => ret (Continue (retry_count + 1) (Some e))).

(** The [while] loop and the [return] after it.  [fuel] bounds the
    number of passes; [None] means the bound was reached. *)
Fixpoint while_loop (fuel : nat) (question : string) (max_retries retry_count : Z)
         (last_error : option string) (w : World) : option (Run LoopResult) :=
  if retry_count <=? max_retries then
    match fuel with
    | O => None
    | S fuel' =>
        let r := attempt question retry_count last_error w in
        match returned r with
        | Ok (Return d) =>
            Some {| returned := Ok d; world := world r; calls := calls r |}
        | Ok (Continue retry_count' last_error') =>
            option_map (after (calls r))
              (while_loop fuel' question max_retries retry_count' last_error' (world r))
        | Raise e =>
            Some {| returned := Raise e; world := world r; calls := calls r |}
        end
    end
  else Some (ret (Failed last_error retry_count) w).

(** [SQLGenerator.generate_sql]: [retry_count = 0], [last_error = None],
    then the loop. *)
Definition generate_sql (question : string) (max_retries : Z) (w : World)
  : option (Run LoopResult) :=
  while_loop (Z.to_nat (max_retries + 1)) question max_retries 0 None w.

(** The world [w] with the client in state [s]. *)
Definition with_client (w : World) (s : Service) : World :=
  {| conn := conn w; client := s |}.

(** A computation that neither reads nor changes the client. *)
Definition db_only {A} (m : M A) : Prop :=
  forall w s,
    m (with_client w s) =
    {| returned := returned (m w); world := with_client (world (m w)) s;
       calls := calls (m w) |}.

(** A computation that makes no recorded call. *)
Definition silent {A} (m : M A) : Prop := forall w, calls (m w) = [].

(** The schema a fetch would report in world [w]. *)
Definition schema_of (w : World) : result Schema := returned (get_schema w).

(** The schema does not change under the program's own use of the
    database: neither fetching it nor an execution that fails alters
    what the next fetch reports. *)
Definition schema_stable : Prop :=
  (forall w, schema_of (world (get_schema w)) = schema_of w) /\
  (forall w sql results error,
      returned (execute_sql sql w) = Ok (false, results, error) ->
      schema_of (world (execute_sql sql w)) = schema_of w).

End Program.

Arguments World : clear implicits.
Arguments Run : clear implicits.
Arguments returned {Conn Service A} r.
Arguments world {Conn Service A} r.
Arguments calls {Conn Service A} r.

(** ** The shape of a run's calls *)

(** The calls of one [_generate_with_openai] that ends with [r]: the
    schema fetch, the request to the client when the schema could be
    rendered, and the return. *)
Inductive generation (question : string) (is_retry : bool)
          (last_error : option string) : result string -> list call -> Prop :=
| generation_no_schema m :
    generation question is_retry last_error (Raise m)
      [GetSchema (Raise m); Generate is_retry last_error (Raise m)]
| generation_no_info s m :
    schema_info_of s = Raise m ->
    generation question is_retry last_error (Raise m)
      [GetSchema (Ok s); Generate is_retry last_error (Raise m)]
| generation_asked s info answer :
    schema_info_of s = Ok info ->
    generation question is_retry last_error (answer_of answer)
      [GetSchema (Ok s);
       Create (chat_request (build_prompt question is_retry last_error info)) answer;
       Generate is_retry last_error (answer_of answer)].

(** The calls of the loop entered with [retry_count] and [last_error],
    and the dictionary it returns. *)
Inductive run_from (question : string) (max_retries : Z)
  : Z -> option string -> list call -> LoopResult -> Prop :=
| run_exhausted retry_count last_error :
    max_retries < retry_count ->
    run_from question max_retries retry_count last_error []
      (Failed last_error retry_count)
| run_generation_error retry_count last_error m g t d :
    retry_count <= max_retries ->
    generation question (0 <? retry_count) last_error (Raise m) g ->
    run_from question max_retries (retry_count + 1) (Some m) t d ->
    run_from question max_retries retry_count last_error (g ++ t)%list d
| run_execution_error retry_count last_error sql m g t d :
    retry_count <= max_retries ->
    generation question (0 <? retry_count) last_error (Ok sql) g ->
    run_from question max_retries (retry_count + 1) (Some m) t d ->
    run_from question max_retries retry_count last_error
      (g ++ ExecuteSql sql (false, None, Some m) :: t)%list d
| run_success retry_count last_error sql results g :
    retry_count <= max_retries ->
    generation question (0 <? retry_count) last_error (Ok sql) g ->
    run_from question max_retries retry_count last_error
      (g ++ [ExecuteSql sql (true, Some results, None)])%list
      (Succeeded sql (Some results) (retry_count + 1)).

(** The execution of an attempt succeeded. *)
Definition succeeded (c : call) : bool :=
  match c with
  | ExecuteSql _ (true, _, _) => true
  | _ => false
  end.

(** The generator call of an attempt raised. *)
Definition generation_raised (c : call) : bool :=
  match c with
  | Generate _ _ (Raise _) => true
  | _ => false
  end.

(** Every attempt reached the executor and its execution failed. *)
Definition every_execution_failed (t : list call) : bool :=
  forallb (fun c => negb (succeeded c) && negb (generation_raised c)) t.

(** ** Showing a result *)

(** [s * n] for a [str] *)
Fixpoint times (s : string) (n : nat) : string :=
  match n with
  | O => EmptyString
  | S n' => s ++ times s n'
  end.

Definition tab : string := String (ascii_of_nat 9) EmptyString.

(** What an f-string field makes of an [Optional[str]]. *)
Definition format_optional (o : option string) : string :=
  match o with
  | Some s => s
  | None => "None"
  end.

(** The lines [display_results] prints for the rows of [data]:
    [print("\t".join(str(item) for item in row))] for each row. *)
Definition row_lines (data : list row) : list string :=
  map (fun row => PyStr.join tab (map format row)) data.

(** [display_results]: the arguments of its [print] calls, in order, and
    how it ends.  Unpacking [result['results']] raises when it is
    [None]. *)
Definition display_results (dict : LoopResult) : list string * result unit :=
  let banner := newline ++ times "=" 50 in
  let results_title := newline ++ "Results:" in
  match dict with
  | Succeeded sql results attempts =>
      let head :=
        [banner;
         "SUCCESS after " ++ format (PyInt attempts) ++ " attempts";
         "Generated SQL:";
         sql] in
      match results with
      | Some (columns, data) =>
          ((head ++ [results_title; PyStr.join tab columns]
                 ++ row_lines data)%list,
           Ok tt)
      | None => (head, Raise "cannot unpack non-iterable NoneType object")
      end
  | Failed error attempts =>
      ([banner;
        "FAILED after maximum retries";
        "Last error: " ++ format_optional error],
       Ok tt)
  end.

(** ** Concrete collaborators

    A small database and a scripted chat client, to run the program on. *)
Module Scenario.

(** A connection to a database with the tables [users(id, name)] and
    [orders(id, user_id, total)]; only the rows of [users] change. *)
Inductive shop :=
| Open (users : list row)
| Closed.

Definition closed_message : string := "Cannot operate on a closed database.".

Definition table_info_row (cid : Z) (name type : string) (pk : Z) : row :=
  [PyInt cid; PyStr name; PyStr type; PyInt 0; PyNone; PyInt pk].

Definition shop_execute (c : shop) (sql : string) : result result_set * shop :=
  match c with
  | Closed => (Raise closed_message, Closed)
  | Open users =>
      if String.eqb sql "SELECT name FROM sqlite_master WHERE type='table'"
      then (Ok (Some (["name"], [[PyStr "users"]; [PyStr "orders"]])), c)
      else if String.eqb sql "PRAGMA table_info(users)"
      then (Ok (Some (["cid"; "name"; "type"; "notnull"; "dflt_value"; "pk"],
                      [table_info_row 0 "id" "INTEGER" 1;
                       table_info_row 1 "name" "TEXT" 0])), c)
      else if String.eqb sql "PRAGMA table_info(orders)"
      then (Ok (Some (["cid"; "name"; "type"; "notnull"; "dflt_value"; "pk"],
                      [table_info_row 0 "id" "INTEGER" 1;
                       table_info_row 1 "user_id" "INTEGER" 0;
                       table_info_row 2 "total" "INTEGER" 0])), c)
      else if String.eqb sql "SELECT * FROM users"
      then (Ok (Some (["id"; "name"], users)), c)
      else if String.eqb sql "SELECT 1;"
      then (Ok (Some (["1"], [[PyInt 1]])), c)
      else if String.eqb sql "INSERT INTO users VALUES (3, 'Cy')"
      then (Ok None, Open (users ++ [[PyInt 3; PyStr "Cy"]]))
      else if String.eqb sql EmptyString
      then (Ok None, c)
      else if String.eqb sql "SELECT * FROM user"
      then (Raise "no such table: user", c)
      else if String.eqb sql "SELECT * FROM nonexistent"
      then (Raise "no such table: nonexistent", c)
      else (Raise "unrecognized statement", c)
  end.

#[export] Instance shop_sqlite3 : Sqlite3 shop := {
  cursor c := match c with Closed => Raise closed_message | Open _ => Ok tt end;
  execute := shop_execute
}.

(** A chat client that gives the answers of [script] in turn and
    [default] once they are used up. *)
Record scripted := {
  script : list (result (list (option string)));
  default : result (list (option string))
}.

#[export] Instance scripted_client : ChatClient scripted := {
  create s _ :=
    match script s with
    | [] => (default s, s)
    | a :: rest => (a, {| script := rest; default := default s |})
    end
}.

Definition says (content : string) : result (list (option string)) :=
  Ok [Some content].

Definition two_users : list row := [[PyInt 1; PyStr "Ann"]; [PyInt 2; PyStr "Bo"]].

Definition start (answers : list (result (list (option string))))
           (otherwise : result (list (option string))) : World shop scripted :=
  {| conn := Open two_users;
     client := {| script := answers; default := otherwise |} |}.

(** The schema of the shop, and its rendering in the prompts. *)
Definition shop_schema : Schema :=
  [{| table := PyStr "users";
      columns := [PyStr "id"; PyStr "name"];
      types := [PyStr "INTEGER"; PyStr "TEXT"] |};
   {| table := PyStr "orders";
      columns := [PyStr "id"; PyStr "user_id"; PyStr "total"];
      types := [PyStr "INTEGER"; PyStr "INTEGER"; PyStr "INTEGER"] |}].

Definition shop_schema_info : string :=
  "Table users columns: id, name" ++ newline
  ++ "Table orders columns: id, user_id, total".

Definition disconnected (otherwise : result (list (option string)))
  : World shop scripted :=
  {| conn := Closed; client := {| script := []; default := otherwise |} |}.

End Scenario.


(** [s] does not begin with white space. *)
Definition starts_clean (s : string) : bool :=
  match s with
  | EmptyString => true
  | String c _ => negb (PyStr.isspace c)
  end.

(** A database without tables. *)
Module Vacant.

Inductive vacant := NoTables.

#[export] Instance vacant_sqlite3 : Sqlite3 vacant := {
  cursor _ := Ok tt;
  execute c sql :=
    if String.eqb sql "SELECT name FROM sqlite_master WHERE type='table'"
    then (Ok (Some (["name"], [])), c)
    else (Raise "unrecognized statement", c)
}.

Definition bare (otherwise : result (list (option string)))
  : World vacant Scenario.scripted :=
  {| conn := NoTables;
     client := {| Scenario.script := []; Scenario.default := otherwise |} |}.

End Vacant.

(** Finds where an element sits in a list whose first elements are known. *)
Ltac peel :=
  repeat match goal with
  | E : ([] = ?l ++ _ :: _)%list |- _ => destruct l; discriminate E
  | E : (_ :: _ = ?l ++ _ :: _)%list |- _ =>
      destruct l as [|? l]; cbn [app] in E; inversion E; subst; clear E
  end.

(** Reduces a run on the concrete collaborators to its value. *)
Ltac run_as r Hr :=
  match goal with
  | |- context [@generate_sql ?C ?S ?I ?J ?q ?n ?w] =>
      remember (@generate_sql C S I J q n w) as o eqn:Hr;
      let Hc := fresh "Hc" in
      assert (Hc := Hr); vm_compute in Hc;
      destruct o as [r|]; [|discriminate Hc];
      injection Hc as Hc; symmetry in Hr
  end.

(** * Facts *)

(** ** The monad *)

Section ProgramFacts.

Context {Conn Service : Type} `{Sqlite3 Conn} `{ChatClient Service}.

Implicit Types w : World Conn Service.

Lemma silent_ret A (a : A) : silent (@ret Conn Service A a).
Proof. intro w; reflexivity. Qed.

Lemma silent_raise A msg : silent (@raise Conn Service A msg).
Proof. intro w; reflexivity. Qed.

Lemma silent_lift A (r : result A) : silent (@lift Conn Service A r).
Proof. intro w; reflexivity. Qed.

Lemma silent_bind A B (m : M (Conn:=Conn) (Service:=Service) A) (f : A -> M B) :
  silent m -> (forall a, silent (f a)) -> silent (bind m f).
Proof.
  intros Hm Hf w. unfold bind.
  destruct (returned (m w)) eqn:E; cbn.
  - rewrite Hm, Hf. reflexivity.
  - apply Hm.
Qed.

Lemma silent_try_except A (m : M (Conn:=Conn) (Service:=Service) A) (h : string -> M A) :
  silent m -> (forall e, silent (h e)) -> silent (try_except m h).
Proof.
  intros Hm Hh w. unfold try_except.
  destruct (returned (m w)) eqn:E; cbn.
  - apply Hm.
  - rewrite Hm, Hh. reflexivity.
Qed.

Lemma silent_conn_cursor : silent (conn_cursor (Service:=Service)).
Proof. intro w; reflexivity. Qed.

Lemma silent_cursor_execute sql : silent (cursor_execute (Service:=Service) sql).
Proof. intro w. unfold cursor_execute. destruct (execute (conn w) sql); reflexivity. Qed.

Lemma silent_item t i : silent (@item Conn Service t i).
Proof. unfold item. destruct (nth_error t i); [apply silent_ret | apply silent_raise]. Qed.

Lemma silent_comprehension A B (f : A -> M (Conn:=Conn) (Service:=Service) B) l :
  (forall a, silent (f a)) -> silent (comprehension f l).
Proof.
  intro Hf. induction l as [|x rest IH]; cbn [comprehension].
  - apply silent_ret.
  - apply silent_bind; [apply Hf|]. intro y.
    apply silent_bind; [exact IH|]. intro ys. apply silent_ret.
Qed.

Lemma silent_for_table tables :
  forall schema, silent (for_table (Service:=Service) tables schema).
Proof.
  induction tables as [|tbl rest IH]; intro schema; cbn [for_table].
  - apply silent_ret.
  - apply silent_bind; [apply silent_item|]. intro table_name.
    apply silent_bind; [apply silent_cursor_execute|]. intro cur.
    apply silent_bind; [apply silent_comprehension; intro; apply silent_item|].
    intro names.
    apply silent_bind; [apply silent_comprehension; intro; apply silent_item|].
    intro tys. apply IH.
Qed.

Lemma get_schema_calls w :
  calls (get_schema w) = [GetSchema (returned (get_schema w))].
Proof.
  unfold get_schema, traced. cbn [calls returned].
  match goal with |- (calls (?m w) ++ _)%list = _ => assert (Hs : silent m) end.
  { apply silent_bind; [apply silent_conn_cursor|]. intros _.
    apply silent_bind; [apply silent_cursor_execute|]. intro cur.
    apply silent_for_table. }
  rewrite Hs. reflexivity.
Qed.

(** ** The three methods *)

Lemma execute_sql_run sql w :
  exists e,
    returned (execute_sql sql w) = Ok e /\
    calls (execute_sql sql w) = [ExecuteSql sql e] /\
    ((exists results, e = (true, Some results, None)) \/
     (exists m, e = (false, None, Some m))).
Proof.
  unfold execute_sql, traced, try_except, bind, conn_cursor, cursor_execute.
  cbn. destruct (cursor (conn w)) as [[]|m]; cbn.
  - destruct (execute (conn w) sql) as [[cur|m] c]; cbn; eauto 6.
  - eauto 6.
Qed.

Lemma bind_ok A B (m : M A) (f : A -> M B) w a :
  returned (m w) = Ok a ->
  bind m f w = after (calls (m w)) (f a (world (m w))).
Proof. intro E. unfold bind. rewrite E. reflexivity. Qed.

Lemma bind_raise A B (m : M A) (f : A -> M B) w e :
  returned (m w) = Raise e ->
  bind m f w = {| returned := Raise e; world := world (m w); calls := calls (m w) |}.
Proof. intro E. unfold bind. rewrite E. reflexivity. Qed.

Lemma bind_lift_ok A B (a : A) (f : A -> M B) w :
  bind (lift (Ok a)) f w = f a w.
Proof. unfold bind, lift, after. cbn. destruct (f a w); reflexivity. Qed.

Lemma bind_lift_raise A B e (f : A -> M B) w :
  bind (lift (Raise e)) f w = {| returned := Raise e; world := w; calls := [] |}.
Proof. reflexivity. Qed.

Lemma create_run req w :
  chat_completions_create req w =
  {| returned := fst (create (client w) req);
     world := {| conn := conn w; client := snd (create (client w) req) |};
     calls := [Create req (fst (create (client w) req))] |}.
Proof.
  unfold chat_completions_create, traced.
  destruct (create (client w) req); reflexivity.
Qed.

(** [_generate_with_openai], case by case. *)
Lemma generate_unfold question is_retry last_error w :
  _generate_with_openai question is_retry last_error w =
  match returned (get_schema w) with
  | Raise m =>
      {| returned := Raise m; world := world (get_schema w);
         calls := [GetSchema (Raise m); Generate is_retry last_error (Raise m)] |}
  | Ok s =>
      match schema_info_of s with
      | Raise m =>
          {| returned := Raise m; world := world (get_schema w);
             calls := [GetSchema (Ok s); Generate is_retry last_error (Raise m)] |}
      | Ok info =>
          let req := chat_request (build_prompt question is_retry last_error info) in
          let a := create (client (world (get_schema w))) req in
          {| returned := answer_of (fst a);
             world := with_client (world (get_schema w)) (snd a);
             calls := [GetSchema (Ok s); Create req (fst a);
                       Generate is_retry last_error (answer_of (fst a))] |}
      end
  end.
Proof.
  unfold _generate_with_openai, traced.
  destruct (returned (get_schema w)) as [s|m] eqn:Es.
  - rewrite (bind_ok _ _ _ _ _ _ Es), get_schema_calls, Es.
    destruct (schema_info_of s) as [info|m] eqn:Ei.
    + rewrite bind_lift_ok. cbn zeta.
      set (w1 := world (get_schema w)).
      set (req := chat_request _).
      destruct (fst (create (client w1) req)) as [choices|m] eqn:Ec.
      * erewrite bind_ok by (rewrite create_run; exact Ec).
        rewrite create_run. cbn [after calls returned world].
        destruct (first_content choices) as [content|m] eqn:Ef.
        -- rewrite bind_lift_ok. cbn [ret calls returned world app answer_of].
           rewrite Ef, Ec. reflexivity.
        -- rewrite bind_lift_raise. cbn [calls returned world app answer_of].
           rewrite Ef, Ec. reflexivity.
      * erewrite bind_raise by (rewrite create_run; exact Ec).
        rewrite create_run. cbn [after calls returned world app answer_of].
        rewrite Ec. reflexivity.
    + rewrite bind_lift_raise. cbn [after calls returned world app].
      reflexivity.
  - rewrite (bind_raise _ _ _ _ _ _ Es), get_schema_calls, Es.
    reflexivity.
Qed.

Lemma generation_run question is_retry last_error w :
  generation question is_retry last_error
    (returned (_generate_with_openai question is_retry last_error w))
    (calls (_generate_with_openai question is_retry last_error w)).
Proof.
  rewrite generate_unfold.
  destruct (returned (get_schema w)) as [s|m]; [|constructor].
  destruct (schema_info_of s) as [info|m] eqn:Ei; now constructor.
Qed.

(** ** The loop *)

Lemma attempt_run question retry_count last_error w :
  let g := _generate_with_openai question (0 <? retry_count) last_error w in
  match returned g with
  | Raise m =>
      attempt question retry_count last_error w =
      {| returned := Ok (Continue (retry_count + 1) (Some m));
         world := world g; calls := calls g |}
  | Ok sql =>
      let x := execute_sql sql (world g) in
      exists success results error,
        returned x = Ok (success, results, error) /\
        attempt question retry_count last_error w =
        {| returned :=
             Ok (if success : bool
                 then Return (Succeeded sql results (retry_count + 1))
                 else Continue (retry_count + 1) error);
           world := world x; calls := (calls g ++ calls x)%list |}
  end.
Proof.
  intro g. unfold attempt, try_except.
  destruct (returned g) as [sql|m] eqn:Eg.
  - set (x := execute_sql sql (world g)).
    destruct (execute_sql_run sql (world g)) as (e & Ee & _ & _).
    destruct e as [[success results] error].
    exists success, results, error. split; [exact Ee|].
    rewrite (bind_ok _ _ _ _ _ _ Eg). fold g.
    rewrite (bind_ok _ _ _ _ _ _ Ee). fold x.
    destruct success; unfold after, ret; cbn [returned world calls];
      rewrite app_nil_r; reflexivity.
  - rewrite (bind_raise _ _ _ _ _ _ Eg). fold g.
    unfold after, ret; cbn [returned world calls].
    rewrite app_nil_r. reflexivity.
Qed.

(** With fuel for the passes that remain, the loop returns a dictionary,
    and its calls have the shape [run_from] describes. *)
Lemma while_loop_run fuel :
  forall question max_retries retry_count last_error w,
    (Z.to_nat (max_retries + 1 - retry_count) <= fuel)%nat ->
    exists d w' t,
      while_loop fuel question max_retries retry_count last_error w =
      Some {| returned := Ok d; world := w'; calls := t |} /\
      run_from question max_retries retry_count last_error t d.
Proof.
  induction fuel as [|fuel IH]; intros question N rc le w Hfuel;
    cbn [while_loop]; destruct (rc <=? N) eqn:Hle.
  - apply Z.leb_le in Hle. lia.
  - apply Z.leb_gt in Hle. eexists _, _, _. split; [reflexivity|].
    now constructor.
  - apply Z.leb_le in Hle.
    pose proof (attempt_run question rc le w) as Ha. cbn zeta in Ha.
    pose proof (generation_run question (0 <? rc) le w) as Hg.
    destruct (returned (_generate_with_openai question (0 <? rc) le w))
      as [sql|m] eqn:Eg.
    + destruct Ha as (success & results & error & Ee & Ha).
      destruct (execute_sql_run sql
                  (world (_generate_with_openai question (0 <? rc) le w)))
        as (e & Ee' & Hc & Hshape).
      rewrite Ee in Ee'. injection Ee' as <-.
      rewrite Ha. cbn [returned world calls]. rewrite Hc.
      destruct Hshape as [(res & [= -> -> ->]) | (m & [= -> -> ->])].
      * eexists _, _, _. split; [reflexivity|].
        apply run_success; assumption.
      * destruct (IH question N (rc + 1) (Some m)
                     (world (execute_sql sql
                        (world (_generate_with_openai question (0 <? rc) le w)))))
          as (d & w' & t & -> & Hrun); [lia|].
        eexists _, _, _. split; [reflexivity|]. cbn [calls].
        rewrite <- app_assoc. cbn [app].
        apply run_execution_error; assumption.
    + rewrite Ha. cbn [returned world calls].
      destruct (IH question N (rc + 1) (Some m)
                  (world (_generate_with_openai question (0 <? rc) le w)))
        as (d & w' & t & -> & Hrun); [lia|].
      eexists _, _, _. split; [reflexivity|]. cbn [calls].
      eapply run_generation_error; eassumption.
  - apply Z.leb_gt in Hle. eexists _, _, _. split; [reflexivity|].
    now constructor.
Qed.

Lemma generate_sql_run question max_retries w :
  exists d w' t,
    generate_sql question max_retries w =
    Some {| returned := Ok d; world := w'; calls := t |} /\
    run_from question max_retries 0 None t d.
Proof.
  unfold generate_sql. apply while_loop_run.
  rewrite Z.sub_0_r. apply Nat.le_refl.
Qed.

End ProgramFacts.

(** ** What the shape of a run implies *)

Lemma count_app p (a b : list call) : count p (a ++ b) = count p a + count p b.
Proof.
  unfold count. rewrite filter_app, length_app. lia.
Qed.

Lemma count_cons p c (t : list call) :
  count p (c :: t) = (if p c then 1 else 0) + count p t.
Proof.
  unfold count. cbn [filter]. destruct (p c); cbn [List.length]; lia.
Qed.

Lemma count_nil p : count p [] = 0.
Proof. reflexivity. Qed.

Lemma count_nonneg p t : 0 <= count p t.
Proof. unfold count. lia. Qed.

(** One generator call: one schema fetch, one return, no execution. *)
Lemma generation_counts question is_retry last_error r g :
  generation question is_retry last_error r g ->
  count is_get_schema g = 1 /\ count is_generate g = 1 /\
  count is_execute_sql g = 0 /\ count is_create g <= 1 /\
  forallb (fun c => negb (succeeded c)) g = true.
Proof.
  intros []; repeat split; cbn; try reflexivity; lia.
Qed.

Lemma generation_raised_iff question is_retry last_error r g :
  generation question is_retry last_error r g ->
  forallb (fun c => negb (succeeded c) && negb (generation_raised c)) g =
  match r with Ok _ => true | Raise _ => false end.
Proof.
  intros [m|s m Hs|s info answer Hs]; cbn; try reflexivity.
  destruct (answer_of answer); reflexivity.
Qed.

(** Every attempt is counted once, whatever made it fail. *)
Lemma run_from_attempts question N rc le t d :
  run_from question N rc le t d ->
  attempts d = rc + count is_generate t /\
  count is_get_schema t = count is_generate t.
Proof.
  induction 1 as [rc le Hlt | rc le m g t d Hle Hg Hrun [IH1 IH2]
                 | rc le sql m g t d Hle Hg Hrun [IH1 IH2]
                 | rc le sql results g Hle Hg];
    try (destruct (generation_counts _ _ _ _ _ Hg) as (G1 & G2 & _));
    rewrite ?count_app, ?count_cons, ?count_nil; cbn [attempts is_generate is_get_schema];
    split; lia.
Qed.

(** The loop leaves through [return] after the loop only with the budget
    used up, and through the [return] inside it within the budget. *)
Lemma run_from_bounds question N rc le t d :
  run_from question N rc le t d ->
  rc <= N + 1 ->
  match d with
  | Failed _ n => n = N + 1
  | Succeeded _ _ n => rc < n <= N + 1
  end.
Proof.
  induction 1; intro Hrc; cbn; try lia.
  - specialize (IHrun_from ltac:(lia)). destruct d; lia.
  - specialize (IHrun_from ltac:(lia)). destruct d; lia.
Qed.

Lemma generation_returns question is_retry last_error r g :
  generation question is_retry last_error r g ->
  In (Generate is_retry last_error r) g.
Proof. intros []; cbn; auto. Qed.

Lemma no_success_in_generation question is_retry last_error r g :
  generation question is_retry last_error r g ->
  existsb succeeded g = false.
Proof. intros []; reflexivity. Qed.

(** A run whose every attempt fails in the executor ends after the loop,
    with the message of its last execution. *)
Lemma run_from_all_failed question N rc le t d :
  run_from question N rc le t d ->
  every_execution_failed t = true ->
  rc <= N ->
  exists t0 sql m,
    t = (t0 ++ [ExecuteSql sql (false, None, Some m)])%list /\
    d = Failed (Some m) (N + 1) /\
    count is_execute_sql t = N + 1 - rc.
Proof.
  unfold every_execution_failed.
  induction 1 as [rc le Hlt | rc le m g t d Hle Hg Hrun IH
                 | rc le sql m g t d Hle Hg Hrun IH
                 | rc le sql results g Hle Hg];
    intros Hall Hrc.
  - lia.
  - rewrite forallb_app, (generation_raised_iff _ _ _ _ _ Hg) in Hall.
    discriminate.
  - rewrite forallb_app in Hall. cbn [forallb] in Hall.
    apply andb_prop in Hall as [_ Hall]. cbn in Hall.
    destruct (generation_counts _ _ _ _ _ Hg) as (_ & _ & Gx & _).
    destruct (Z.eq_dec rc N) as [->|Hne].
    + inversion Hrun; subst; try lia.
      exists g, sql, m. repeat split.
      rewrite count_app, count_cons, count_nil, Gx. cbn [is_execute_sql]. lia.
    + destruct (IH Hall ltac:(lia)) as (t0 & sql' & m' & -> & -> & Hc).
      exists (g ++ ExecuteSql sql (false, None, Some m) :: t0)%list, sql', m'.
      repeat split.
      * rewrite <- app_assoc. reflexivity.
      * rewrite count_app, count_cons, Gx, Hc. cbn [is_execute_sql]. lia.
  - rewrite forallb_app in Hall. cbn in Hall.
    rewrite andb_false_r in Hall. discriminate.
Qed.

(** A run with a successful execution ends with it. *)
Lemma run_from_success question N rc le t d :
  run_from question N rc le t d ->
  existsb succeeded t = true ->
  exists t0 sql results,
    t = (t0 ++ [ExecuteSql sql (true, Some results, None)])%list /\
    existsb succeeded t0 = false /\
    d = Succeeded sql (Some results) (rc + count is_generate t).
Proof.
  induction 1 as [rc le Hlt | rc le m g t d Hle Hg Hrun IH
                 | rc le sql m g t d Hle Hg Hrun IH
                 | rc le sql results g Hle Hg];
    intro Hex;
    try (pose proof (no_success_in_generation _ _ _ _ _ Hg) as Hn;
         destruct (generation_counts _ _ _ _ _ Hg) as (_ & Gg & _)).
  - discriminate.
  - rewrite existsb_app, Hn in Hex. cbn in Hex.
    destruct (IH Hex) as (t0 & sql & res & -> & H0 & ->).
    exists (g ++ t0)%list, sql, res. repeat split.
    + apply app_assoc.
    + rewrite existsb_app, Hn, H0. reflexivity.
    + f_equal. rewrite (count_app _ g), Gg. lia.
  - rewrite existsb_app, Hn in Hex. cbn in Hex.
    destruct (IH Hex) as (t0 & sql' & res & -> & H0 & ->).
    exists (g ++ ExecuteSql sql (false, None, Some m) :: t0)%list, sql', res.
    repeat split.
    + rewrite <- app_assoc. reflexivity.
    + rewrite existsb_app, Hn. cbn. exact H0.
    + f_equal. rewrite (count_app _ g), count_cons, Gg. cbn [is_generate]. lia.
  - exists g, sql, results. repeat split; [exact Hn|].
    f_equal. rewrite count_app, count_cons, count_nil, Gg. cbn [is_generate]. lia.
Qed.

(** Where an element sits in a list that ends with the only element of
    its kind. *)
Lemma last_of_its_kind (p : call -> bool) t0 c t1 t0' c' :
  (t0 ++ c :: t1 = t0' ++ [c'])%list ->
  p c = true -> existsb p t0' = false ->
  t0 = t0' /\ c = c' /\ t1 = [].
Proof.
  intros E Hc Hn.
  destruct t1 as [|x t1] using rev_ind.
  - apply app_inj_tail in E as [-> ->]. auto.
  - clear IHt1. exfalso.
    change (t0 ++ c :: t1 ++ [x])%list with (t0 ++ (c :: t1) ++ [x])%list in E.
    rewrite app_assoc in E. apply app_inj_tail in E as [<- _].
    rewrite existsb_app in Hn. cbn in Hn. rewrite Hc in Hn.
    rewrite orb_true_r in Hn. discriminate.
Qed.

(** A run starts with a generator call that is given the loop's
    variables, unless the budget is already used up. *)
Lemma run_from_head question N rc le t d :
  run_from question N rc le t d ->
  (t = [] /\ d = Failed le rc /\ N < rc) \/
  (exists s mid r t',
      t = (GetSchema s :: mid ++ Generate (0 <? rc) le r :: t')%list /\
      count is_generate mid = 0).
Proof.
  intros [rc' le' Hlt | rc' le' m g t' d' Hle Hg Hrun
         | rc' le' sql m g t' d' Hle Hg Hrun
         | rc' le' sql results g Hle Hg].
  - left. auto.
  - right. inversion Hg; subst.
    + exists (Raise m), [], (Raise m), t'. split; reflexivity.
    + exists (Ok s), [], (Raise m), t'. split; reflexivity.
    + eexists (Ok s), [Create _ answer], (answer_of answer), t'.
      split; reflexivity.
  - right. inversion Hg; subst.
    eexists (Ok s), [Create _ answer], (answer_of answer), _.
    split; reflexivity.
  - right. inversion Hg; subst.
    eexists (Ok s), [Create _ answer], (answer_of answer), _.
    split; reflexivity.
Qed.

(** What follows an attempt that failed with [m]. *)
Lemma run_from_next question N rc m t d :
  0 <= rc <= N ->
  run_from question N (rc + 1) (Some m) t d ->
  (t = [] /\ d = Failed (Some m) (N + 1)) \/
  (exists s mid r t2,
      t = (GetSchema s :: mid ++ Generate true (Some m) r :: t2)%list /\
      count is_generate mid = 0).
Proof.
  intros Hrc Hrun.
  destruct (run_from_head _ _ _ _ _ _ Hrun)
    as [(-> & -> & Hlt) | (s & mid & r & t2 & -> & Hmid)].
  - left. split; [reflexivity|]. f_equal. lia.
  - right. exists s, mid, r, t2. split; [|exact Hmid].
    replace (0 <? rc + 1) with true by (symmetry; apply Z.ltb_lt; lia).
    reflexivity.
Qed.

(** After a generator call that raised [m], either the budget is used up
    and [m] is the error returned, or the next generator call is a retry
    that is given [m]. *)
Lemma run_from_generation_raised question N rc le t d :
  run_from question N rc le t d ->
  0 <= rc ->
  forall t0 is_retry last_error m t1,
    t = (t0 ++ Generate is_retry last_error (Raise m) :: t1)%list ->
    (t1 = [] /\ d = Failed (Some m) (N + 1)) \/
    (exists s mid r t2,
        t1 = (GetSchema s :: mid ++ Generate true (Some m) r :: t2)%list /\
        count is_generate mid = 0).
Proof.
  assert (Hnext : forall rc m t d,
             0 <= rc <= N ->
             run_from question N (rc + 1) (Some m) t d ->
             (t = [] /\ d = Failed (Some m) (N + 1)) \/
             (exists s mid r t2,
                 t = (GetSchema s :: mid ++ Generate true (Some m) r :: t2)%list /\
                 count is_generate mid = 0)).
  { intros rc0 m0 t0 d0 Hrc0 Hrun.
    destruct (run_from_head _ _ _ _ _ _ Hrun)
      as [(-> & -> & Hlt) | (s & mid & r & t2 & -> & Hmid)].
    - left. split; [reflexivity|]. f_equal. lia.
    - right. exists s, mid, r, t2. split; [|exact Hmid].
      replace (0 <? rc0 + 1) with true by (symmetry; apply Z.ltb_lt; lia).
      reflexivity. }
  induction 1 as [rc le Hlt | rc le m g t d Hle Hg Hrun IH
                 | rc le sql m g t d Hle Hg Hrun IH
                 | rc le sql results g Hle Hg];
    intros Hrc t0 ir le0 m0 t1 E.
  - peel.
  - inversion Hg; subst; cbn [app] in E; peel;
      try match goal with
          | H1 : answer_of ?a = Raise ?x, H2 : answer_of ?a = Raise ?y |- _ =>
              assert (y = x) by congruence; subst y
          end;
      try (eapply Hnext; [|eassumption]; lia);
      try (eapply IH; [lia|reflexivity]).
  - inversion Hg; subst; cbn [app] in E; peel;
      try congruence;
      try (eapply IH; [lia|reflexivity]).
  - inversion Hg; subst; cbn [app] in E; peel; congruence.
Qed.

(** Every request to the client is built from the schema fetched just
    before it, in the same generator call. *)
Lemma run_from_create question N rc le t d :
  run_from question N rc le t d ->
  forall t0 req answer t1,
    t = (t0 ++ Create req answer :: t1)%list ->
    exists t0' s info is_retry last_error,
      t0 = (t0' ++ [GetSchema (Ok s)])%list /\
      schema_info_of s = Ok info /\
      req = chat_request (build_prompt question is_retry last_error info).
Proof.
  induction 1 as [rc le Hlt | rc le m g t d Hle Hg Hrun IH
                 | rc le sql m g t d Hle Hg Hrun IH
                 | rc le sql results g Hle Hg];
    intros t0 req ans t1 E.
  - peel.
  - inversion Hg; subst; cbn [app] in E; peel;
      try (now eexists [], _, _, _, _; repeat split; eauto);
      destruct (IH _ _ _ _ eq_refl) as (t0' & s' & info' & ir & le' & -> & Hi & ->);
      eexists; exists s', info', ir, le';
      (split; [rewrite !app_comm_cons; reflexivity | split; eauto]).
  - inversion Hg; subst; cbn [app] in E; peel;
      try (now eexists [], _, _, _, _; repeat split; eauto);
      destruct (IH _ _ _ _ eq_refl) as (t0' & s' & info' & ir & le' & -> & Hi & ->);
      eexists; exists s', info', ir, le';
      (split; [rewrite !app_comm_cons; reflexivity | split; eauto]).
  - inversion Hg; subst; cbn [app] in E; peel;
      now eexists [], _, _, _, _; repeat split; eauto.
Qed.

(** ** Strings *)

Lemma prefix_cons a s1 b s2 :
  String.prefix (String a s1) (String b s2) = true <->
  a = b /\ String.prefix s1 s2 = true.
Proof.
  cbn. destruct (ascii_dec a b) as [->|Hne].
  - tauto.
  - split; [discriminate | intros [? _]; contradiction].
Qed.

Lemma prefix_nil_r s : String.prefix s EmptyString = true -> s = EmptyString.
Proof. destruct s; [reflexivity | discriminate]. Qed.

Lemma prefix_refl s : String.prefix s s = true.
Proof.
  induction s as [|c s IH]; [reflexivity|].
  apply prefix_cons. auto.
Qed.

Lemma prefix_trans a : forall b c,
  String.prefix a b = true -> String.prefix b c = true ->
  String.prefix a c = true.
Proof.
  induction a as [|x a IH]; intros b c Hab Hbc.
  - destruct c; reflexivity.
  - destruct b as [|y b]; [discriminate|].
    destruct c as [|z c]; [discriminate|].
    apply prefix_cons in Hab as [-> Hab].
    apply prefix_cons in Hbc as [-> Hbc].
    apply prefix_cons. eauto.
Qed.

Lemma prefix_append a b : String.prefix a (a ++ b) = true.
Proof.
  induction a as [|x a IH]; cbn [append].
  - destruct b; reflexivity.
  - apply prefix_cons. auto.
Qed.

Lemma append_assoc (a b c : string) : (a ++ b) ++ c = a ++ b ++ c.
Proof. induction a as [|x a IH]; cbn; [|rewrite IH]; reflexivity. Qed.

(** A prefix that does not fit in [x] does not fit in [x ++ y] either,
    when [x] is long enough to decide. *)
Lemma prefix_append_false p : forall x y,
  String.prefix p x = false ->
  (String.length p <= String.length x)%nat ->
  String.prefix p (x ++ y) = false.
Proof.
  induction p as [|a p IH]; intros x y Hp Hlen.
  - destruct x; discriminate.
  - destruct x as [|b x]; [cbn in Hlen; lia|].
    cbn [append]. cbn in Hp |- *.
    destruct (ascii_dec a b); [|reflexivity].
    apply IH; [exact Hp | cbn in Hlen; lia].
Qed.

Lemma contains_cons sub c s :
  PyStr.contains sub (String c s) =
  String.prefix sub (String c s) || PyStr.contains sub s.
Proof. reflexivity. Qed.

Lemma contains_prefix sub s :
  PyStr.contains sub s = false -> String.prefix sub s = false.
Proof.
  destruct s; cbn [PyStr.contains]; intro Hc;
    apply orb_false_elim in Hc as [Hc _]; exact Hc.
Qed.

(** An occurrence in a prefix of [s] is an occurrence in [s]. *)
Lemma contains_in_prefix sub p : forall s,
  String.prefix p s = true ->
  PyStr.contains sub p = true -> PyStr.contains sub s = true.
Proof.
  induction p as [|c p IH]; intros s Hp Hc.
  - cbn in Hc. rewrite orb_false_r in Hc.
    apply prefix_nil_r in Hc. subst sub.
    destruct s; reflexivity.
  - destruct s as [|c' s]; [discriminate|].
    apply prefix_cons in Hp as [<- Hp].
    rewrite contains_cons in Hc |- *.
    apply orb_true_iff in Hc as [Hc|Hc]; apply orb_true_iff.
    + left. eapply prefix_trans; [exact Hc|]. apply prefix_cons. auto.
    + right. eauto.
Qed.

(** An occurrence in what is left of [s] is an occurrence in [s]. *)
Lemma contains_lstrip sub s :
  PyStr.contains sub (PyStr.lstrip s) = true -> PyStr.contains sub s = true.
Proof.
  induction s as [|c s IH]; cbn [PyStr.lstrip]; [auto|].
  destruct (PyStr.isspace c); [|auto].
  intro Hc. rewrite contains_cons. rewrite (IH Hc). apply orb_true_r.
Qed.

Lemma rstrip_prefix s : String.prefix (PyStr.rstrip s) s = true.
Proof.
  induction s as [|c s IH]; [reflexivity|].
  cbn [PyStr.rstrip].
  destruct (PyStr.is_empty (PyStr.rstrip s) && PyStr.isspace c); [reflexivity|].
  apply prefix_cons. auto.
Qed.

Lemma contains_strip sub s :
  PyStr.contains sub (PyStr.strip s) = true -> PyStr.contains sub s = true.
Proof.
  unfold PyStr.strip. intro Hc. apply contains_lstrip.
  eapply contains_in_prefix; [apply rstrip_prefix | exact Hc].
Qed.

Lemma hd_split_prefix sep s :
  String.prefix (hd EmptyString (PyStr.split s sep)) s = true.
Proof.
  unfold PyStr.split. induction s as [|c s IH]; [reflexivity|].
  cbn [PyStr.split_from].
  destruct (String.prefix sep (String c s)); [reflexivity|].
  destruct (PyStr.split_from sep 0 s) as [|p ps]; cbn [hd] in *;
    apply prefix_cons; split; auto.
Qed.

(** The piece before the first separator holds no separator. *)
Lemma hd_split_clean sep s :
  sep <> EmptyString ->
  PyStr.contains sep (hd EmptyString (PyStr.split s sep)) = false.
Proof.
  intro Hsep.
  assert (Hnil : String.prefix sep EmptyString = false)
    by (destruct sep; [contradiction | reflexivity]).
  pose proof hd_split_prefix as Hpre.
  unfold PyStr.split in *. induction s as [|c s IH].
  - cbn [PyStr.split_from hd PyStr.contains]. rewrite Hnil. reflexivity.
  - specialize (Hpre sep s).
    cbn [PyStr.split_from].
    destruct (String.prefix sep (String c s)) eqn:Hp.
    + cbn [hd PyStr.contains]. rewrite Hnil. reflexivity.
    + destruct (PyStr.split_from sep 0 s) as [|p ps]; cbn [hd] in *.
      * rewrite contains_cons. cbn [PyStr.contains].
        rewrite Hnil, orb_false_r.
        destruct (String.prefix sep (String c EmptyString)) eqn:Hq; [|reflexivity].
        rewrite <- Hp. symmetry.
        eapply prefix_trans; [exact Hq|]. apply prefix_cons. split; auto.
      * rewrite contains_cons, IH, orb_false_r.
        destruct (String.prefix sep (String c p)) eqn:Hq; [|reflexivity].
        rewrite <- Hp. symmetry.
        eapply prefix_trans; [exact Hq|]. apply prefix_cons. auto.
Qed.

Lemma contains_append sub s t :
  PyStr.contains sub s = true -> PyStr.contains sub (s ++ t) = true.
Proof.
  apply contains_in_prefix, prefix_append.
Qed.

Lemma strip_all_space s : PyStr.all_space s = true -> PyStr.strip s = EmptyString.
Proof.
  unfold PyStr.strip. induction s as [|c s IH]; [reflexivity|].
  cbn [PyStr.all_space PyStr.lstrip]. intro Hs.
  apply andb_prop in Hs as [-> Hs]. auto.
Qed.

Lemma rstrip_append s t :
  PyStr.is_empty (PyStr.rstrip t) = false ->
  PyStr.rstrip (s ++ t) = s ++ PyStr.rstrip t.
Proof.
  intro Ht. induction s as [|c s IH]; [reflexivity|].
  cbn [append PyStr.rstrip]. rewrite IH.
  destruct s; cbn [append]; [rewrite Ht | ]; reflexivity.
Qed.

(** ** Cleaning the answer *)

Lemma fence_not_empty : fence <> EmptyString.
Proof. discriminate. Qed.

Lemma strip_prefix_clean sql prefix :
  PyStr.startswith sql prefix = true ->
  PyStr.contains fence (strip_prefix sql prefix) = false.
Proof.
  intro Hs. unfold strip_prefix. rewrite Hs.
  destruct (PyStr.contains fence (PyStr.strip _)) eqn:Hc; [|reflexivity].
  apply contains_strip in Hc.
  rewrite hd_split_clean in Hc by apply fence_not_empty. discriminate.
Qed.

(** A text without a fence starts with neither of the [prefixes]. *)
Lemma strip_prefix_none s prefix :
  In prefix prefixes ->
  PyStr.contains fence s = false ->
  strip_prefix s prefix = s.
Proof.
  intros Hin Hc. unfold strip_prefix, PyStr.startswith.
  destruct (String.prefix prefix s) eqn:Hp; [|reflexivity].
  exfalso. apply contains_prefix in Hc.
  rewrite (prefix_trans fence prefix s) in Hc; [discriminate | | exact Hp].
  destruct Hin as [<-|[<-|[]]]; reflexivity.
Qed.

Lemma clean_sql_unfold content :
  clean_sql content =
  strip_prefix (strip_prefix (PyStr.strip content) "```sql") "```".
Proof. reflexivity. Qed.

(** When the answer, trimmed, opens with a fence, no fence is left. *)
Lemma clean_sql_no_fence content :
  PyStr.startswith (PyStr.strip content) fence = true ->
  PyStr.contains fence (clean_sql content) = false.
Proof.
  intro Hs. rewrite clean_sql_unfold.
  destruct (PyStr.startswith (PyStr.strip content) "```sql") eqn:H1.
  - pose proof (strip_prefix_clean _ _ H1) as Hc.
    rewrite (strip_prefix_none _ "```"); [exact Hc | cbn; auto | exact Hc].
  - replace (strip_prefix (PyStr.strip content) "```sql")
      with (PyStr.strip content) by (unfold strip_prefix; rewrite H1; reflexivity).
    apply strip_prefix_clean. exact Hs.
Qed.

(** An answer without text gives the empty statement. *)
Lemma clean_sql_blank content :
  PyStr.all_space content = true -> clean_sql content = EmptyString.
Proof.
  intro Hb. rewrite clean_sql_unfold, (strip_all_space _ Hb). reflexivity.
Qed.

Lemma length_append (a b : string) :
  String.length (a ++ b) = (String.length a + String.length b)%nat.
Proof. induction a as [|c a IH]; cbn; [|rewrite IH]; reflexivity. Qed.

(** The piece before the closing fence is the whole body, when the fence
    does not start earlier. *)
Lemma hd_split_body body :
  PyStr.contains fence (body ++ "``") = false ->
  hd EmptyString (PyStr.split (body ++ fence) fence) = body.
Proof.
  unfold PyStr.split. induction body as [|c b IH]; intro Hc; [reflexivity|].
  cbn [append] in Hc. rewrite contains_cons in Hc.
  apply orb_false_elim in Hc as [Hp Hc].
  cbn [append PyStr.split_from].
  replace (String c (b ++ fence)) with (String c (b ++ "``") ++ "`")
    by (change (String c (b ++ "``") ++ "`") with (String c ((b ++ "``") ++ "`"));
        rewrite append_assoc; reflexivity).
  rewrite (prefix_append_false fence _ "`" Hp)
    by (cbn [String.length]; rewrite length_append; cbn; lia).
  specialize (IH Hc).
  destruct (PyStr.split_from fence 0 (b ++ fence)); cbn [hd] in *;
    rewrite IH; reflexivity.
Qed.

Lemma sql_then_fence body :
  PyStr.startswith body "sql" = false ->
  PyStr.startswith (body ++ fence) "sql" = false.
Proof.
  unfold PyStr.startswith. intro Hs.
  destruct (String.prefix "sql" (body ++ fence)) eqn:E; [exfalso|reflexivity].
  destruct body as [|c1 [|c2 [|c3 b]]]; cbn [append] in E.
  - discriminate E.
  - apply prefix_cons in E as [_ E]. discriminate E.
  - apply prefix_cons in E as [_ E]. apply prefix_cons in E as [_ E].
    discriminate E.
  - change (String c1 (String c2 (String c3 (b ++ fence))))
      with (String c1 (String c2 (String c3 b)) ++ fence) in E.
    rewrite (prefix_append_false _ _ fence Hs) in E by (cbn; lia).
    discriminate E.
Qed.

(** A body between an opening fence and the closing fence comes out
    trimmed and whole. *)
Lemma clean_sql_wrapped opener body :
  In opener prefixes ->
  PyStr.contains fence (body ++ "``") = false ->
  (opener = fence -> PyStr.startswith body "sql" = false) ->
  clean_sql (opener ++ body ++ fence) = PyStr.strip body.
Proof.
  intros Hin Hc Hsql.
  assert (Hbody : PyStr.contains fence (PyStr.strip body) = false).
  { destruct (PyStr.contains fence (PyStr.strip body)) eqn:E; [|reflexivity].
    apply contains_strip in E.
    rewrite (contains_append _ _ "``" E) in Hc. discriminate. }
  assert (Hstrip : PyStr.strip (opener ++ body ++ fence) = opener ++ body ++ fence).
  { unfold PyStr.strip.
    replace (PyStr.lstrip (opener ++ body ++ fence)) with (opener ++ body ++ fence)
      by (destruct Hin as [<-|[<-|[]]]; reflexivity).
    rewrite <- append_assoc. rewrite rstrip_append; reflexivity. }
  rewrite clean_sql_unfold, Hstrip.
  destruct Hin as [<-|[<-|[]]].
  - replace (strip_prefix ("```sql" ++ body ++ fence) "```sql")
      with (PyStr.strip body).
    + apply strip_prefix_none; [cbn; auto | exact Hbody].
    + unfold strip_prefix.
      replace (PyStr.startswith ("```sql" ++ body ++ fence) "```sql") with true
        by (symmetry; apply prefix_append).
      change (PyStr.drop (String.length "```sql") ("```sql" ++ body ++ fence))
        with (body ++ fence).
      rewrite hd_split_body by exact Hc. reflexivity.
  - replace (strip_prefix ("```" ++ body ++ fence) "```sql")
      with ("```" ++ body ++ fence).
    + unfold strip_prefix.
      replace (PyStr.startswith ("```" ++ body ++ fence) "```") with true
        by (symmetry; apply prefix_append).
      change (PyStr.drop (String.length "```") ("```" ++ body ++ fence))
        with (body ++ fence).
      rewrite hd_split_body by exact Hc. reflexivity.
    + unfold strip_prefix.
      replace (PyStr.startswith ("```" ++ body ++ fence) "```sql") with false;
        [reflexivity|].
      symmetry. pose proof (sql_then_fence body (Hsql eq_refl)) as Hf.
      unfold PyStr.startswith in *. cbn [append].
      change "```sql" with ("```" ++ "sql").
      cbn [append String.prefix].
      repeat (destruct (ascii_dec _ _); [|congruence]). exact Hf.
Qed.

(** ** The schema along a run *)

Section SchemaFacts.

Context {Conn Service : Type} `{Sqlite3 Conn} `{ChatClient Service}.

Implicit Types w : World Conn Service.

Lemma db_only_ret A (a : A) : db_only (@ret Conn Service A a).
Proof. intros w s; reflexivity. Qed.

Lemma db_only_raise A msg : db_only (@raise Conn Service A msg).
Proof. intros w s; reflexivity. Qed.

Lemma db_only_conn_cursor : db_only (conn_cursor (Service:=Service)).
Proof. intros w s; reflexivity. Qed.

Lemma db_only_cursor_execute sql : db_only (cursor_execute (Service:=Service) sql).
Proof.
  intros w s. unfold cursor_execute. cbn [with_client conn client].
  destruct (execute (conn w) sql); reflexivity.
Qed.

Lemma db_only_item t i : db_only (@item Conn Service t i).
Proof.
  unfold item. destruct (nth_error t i); [apply db_only_ret | apply db_only_raise].
Qed.

Lemma db_only_bind A B (m : M (Conn:=Conn) (Service:=Service) A) (f : A -> M B) :
  db_only m -> (forall a, db_only (f a)) -> db_only (bind m f).
Proof.
  intros Hm Hf w s. unfold bind. cbn zeta. rewrite !Hm.
  cbn [returned world calls].
  destruct (returned (m w)) as [a|e]; [|reflexivity].
  rewrite Hf. reflexivity.
Qed.

Lemma db_only_traced A ev (m : M (Conn:=Conn) (Service:=Service) A) :
  db_only m -> db_only (traced ev m).
Proof. intros Hm w s. unfold traced. cbn zeta. rewrite !Hm. reflexivity. Qed.

Lemma db_only_comprehension A B (f : A -> M (Conn:=Conn) (Service:=Service) B) l :
  (forall a, db_only (f a)) -> db_only (comprehension f l).
Proof.
  intro Hf. induction l as [|x rest IH]; cbn [comprehension].
  - apply db_only_ret.
  - apply db_only_bind; [apply Hf|]. intro y.
    apply db_only_bind; [exact IH|]. intro ys. apply db_only_ret.
Qed.

Lemma db_only_for_table tables :
  forall schema, db_only (for_table (Service:=Service) tables schema).
Proof.
  induction tables as [|tbl rest IH]; intro schema; cbn [for_table].
  - apply db_only_ret.
  - apply db_only_bind; [apply db_only_item|]. intro table_name.
    apply db_only_bind; [apply db_only_cursor_execute|]. intro cur.
    apply db_only_bind; [apply db_only_comprehension; intro; apply db_only_item|].
    intro names.
    apply db_only_bind; [apply db_only_comprehension; intro; apply db_only_item|].
    intro tys. apply IH.
Qed.

Lemma db_only_get_schema : db_only (get_schema (Service:=Service)).
Proof.
  unfold get_schema. apply db_only_traced.
  apply db_only_bind; [apply db_only_conn_cursor|]. intros _.
  apply db_only_bind; [apply db_only_cursor_execute|]. intro cur.
  apply db_only_for_table.
Qed.

(** The schema fetched does not depend on the client. *)
Lemma schema_of_with_client w s : schema_of (with_client w s) = schema_of w.
Proof. unfold schema_of. rewrite db_only_get_schema. reflexivity. Qed.

(** A generator call fetches the schema of the world it starts in and,
    when the schema is stable, leaves it as it was. *)
Lemma generation_schema question is_retry last_error w :
  let g := _generate_with_openai question is_retry last_error w in
  (forall s, In (GetSchema s) (calls g) -> s = schema_of w) /\
  (schema_stable (Conn:=Conn) (Service:=Service) ->
   schema_of (world g) = schema_of w).
Proof.
  cbn zeta. rewrite generate_unfold. unfold schema_of at 1.
  destruct (returned (get_schema w)) as [s0|m] eqn:Es.
  - destruct (schema_info_of s0) as [info|m]; cbn [calls world]; split.
    + intros s [[= <-]|[[=]|[[=]|[]]]]. reflexivity.
    + intros [Hfetch _]. rewrite schema_of_with_client. apply Hfetch.
    + intros s [[= <-]|[[=]|[]]]. reflexivity.
    + intros [Hfetch _]. apply Hfetch.
  - cbn [calls world]; split.
    + intros s [[= <-]|[[=]|[]]]. reflexivity.
    + intros [Hfetch _]. apply Hfetch.
Qed.

(** With a stable schema, every fetch of a run reports the schema of the
    world the run starts in. *)
Lemma while_loop_schema fuel :
  schema_stable (Conn:=Conn) (Service:=Service) ->
  forall question max_retries retry_count last_error w r,
    while_loop fuel question max_retries retry_count last_error w = Some r ->
    forall s, In (GetSchema s) (calls r) -> s = schema_of w.
Proof.
  intro Hst. induction fuel as [|fuel IH]; intros question N rc le w r;
    cbn [while_loop]; destruct (rc <=? N) eqn:Hle;
    try discriminate; try (intros [= <-] s []).
  pose proof (attempt_run question rc le w) as Ha. cbn zeta in Ha.
  destruct (generation_schema question (0 <? rc) le w) as [Hin Hw].
  specialize (Hw Hst).
  set (g := _generate_with_openai question (0 <? rc) le w) in *.
  destruct (returned g) as [sql|m] eqn:Eg.
  - destruct Ha as (success & results & error & Ee & Ha).
    destruct (execute_sql_run sql (world g)) as (e & Ee' & Hc & _).
    rewrite Ha. cbn [returned world calls]. rewrite Hc.
    destruct success.
    + intros [= <-] s Hs. cbn [calls] in Hs.
      apply in_app_or in Hs as [Hs|[[=]|[]]]. auto.
    + destruct (while_loop fuel question N (rc + 1) error
                  (world (execute_sql sql (world g)))) as [r'|] eqn:Er;
        [|discriminate].
      intros [= <-] s Hs. cbn [after calls option_map] in Hs.
      apply in_app_or in Hs as [Hs|Hs].
      * apply in_app_or in Hs as [Hs|[[=]|[]]]. auto.
      * rewrite (IH _ _ _ _ _ _ Er s Hs).
        destruct Hst as [_ Hexec]. rewrite (Hexec _ _ _ _ Ee). exact Hw.
  - rewrite Ha. cbn [returned world calls].
    destruct (while_loop fuel question N (rc + 1) (Some m) (world g))
      as [r'|] eqn:Er; [|discriminate].
    intros [= <-] s Hs. cbn [after calls option_map] in Hs.
    apply in_app_or in Hs as [Hs|Hs]; [auto|].
    rewrite (IH _ _ _ _ _ _ Er s Hs). exact Hw.
Qed.

End SchemaFacts.

(** * The claims *)

Section Claims.

Context {Conn Service : Type} `{Sqlite3 Conn} `{ChatClient Service}.

Implicit Types w : World Conn Service.

(** More fuel than the loop needs changes nothing. *)
Lemma while_loop_more_fuel fuel :
  forall question max_retries retry_count last_error w r,
    while_loop fuel question max_retries retry_count last_error w = Some r ->
    while_loop (S fuel) question max_retries retry_count last_error w = Some r.
Proof.
  induction fuel as [|fuel IH]; intros question N rc le w r.
  - cbn [while_loop]. destruct (rc <=? N); [discriminate|auto].
  - intro Hr. remember (S fuel) as k eqn:Ek.
    cbn [while_loop]. rewrite Ek in Hr |- *. cbn [while_loop] in Hr.
    destruct (rc <=? N); [|exact Hr].
    destruct (returned (attempt question rc le w)) as [[d|rc' le']|e];
      try exact Hr.
    destruct (while_loop fuel question N rc' le' (world (attempt question rc le w)))
      as [r'|] eqn:Er; [|discriminate].
    rewrite <- Ek. rewrite (IH _ _ _ _ _ _ Er). exact Hr.
Qed.

(** [generate_sql] is the loop with any fuel from [max_retries + 1] up. *)
Lemma while_loop_fuel_irrelevant question max_retries w extra :
  while_loop (Z.to_nat (max_retries + 1) + extra) question max_retries 0 None w
  = generate_sql question max_retries w.
Proof.
  destruct (generate_sql_run question max_retries w) as (d & w' & t & Hr & _).
  rewrite Hr. unfold generate_sql in Hr.
  induction extra as [|extra IH].
  - rewrite Nat.add_0_r. exact Hr.
  - rewrite Nat.add_succ_r. apply while_loop_more_fuel. exact IH.
Qed.

(** With the connection closed, a schema fetch raises at once. *)
Lemma get_schema_unavailable w m :
  cursor (conn w) = Raise m ->
  get_schema w =
  {| returned := Raise m; world := w; calls := [GetSchema (Raise m)] |}.
Proof.
  intro Hc. unfold get_schema, traced.
  erewrite bind_raise by (cbn [conn_cursor returned]; exact Hc).
  reflexivity.
Qed.

Lemma while_loop_unavailable fuel w m :
  cursor (conn w) = Raise m ->
  forall question max_retries retry_count last_error,
    retry_count <= max_retries ->
    (Z.to_nat (max_retries + 1 - retry_count) <= fuel)%nat ->
    exists r,
      while_loop fuel question max_retries retry_count last_error w = Some r /\
      returned r = Ok (Failed (Some m) (max_retries + 1)) /\
      world r = w /\
      count is_get_schema (calls r) = max_retries + 1 - retry_count /\
      count is_create (calls r) = 0 /\
      count is_execute_sql (calls r) = 0.
Proof.
  intro Hc. induction fuel as [|fuel IH]; intros question N rc le Hle Hfuel.
  - lia.
  - cbn [while_loop].
    replace (rc <=? N) with true by (symmetry; apply Z.leb_le; exact Hle).
    pose proof (attempt_run question rc le w) as Ha. cbn zeta in Ha.
    rewrite generate_unfold, (get_schema_unavailable _ _ Hc) in Ha.
    cbn [returned world calls] in Ha. rewrite Ha. cbn [returned world calls].
    destruct (Z.eq_dec rc N) as [->|Hne].
    + destruct fuel; cbn [while_loop];
        replace (N + 1 <=? N) with false by (symmetry; apply Z.leb_gt; lia);
        eexists; (split; [reflexivity|]); cbn [after ret returned world calls];
        rewrite app_nil_r, !count_cons, count_nil; cbn; repeat split; lia.
    + destruct (IH question N (rc + 1) (Some m)) as (r & -> & Hd & Hw & C1 & C2 & C3);
        [lia | lia |].
      eexists; (split; [reflexivity|]). cbn [after returned world calls].
      rewrite !count_app, !count_cons, !count_nil, C1, C2, C3.
      cbn [is_get_schema is_create is_execute_sql]. repeat split; auto; lia.
Qed.

(** C1.  With a retry budget [max_retries >= 0] the loop returns, and
    when every attempt of the run reached the executor and failed there,
    it returns the failure dictionary after exactly [max_retries + 1]
    attempts: [attempts] is [max_retries + 1], [max_retries + 1] generator
    calls and as many executions were made, and [error] is the message of
    the last execution, which is the last call of the run. *)
Theorem failing_run_uses_all_attempts question max_retries w :
  0 <= max_retries ->
  exists r,
    generate_sql question max_retries w = Some r /\
    (every_execution_failed (calls r) = true ->
     exists t0 sql m,
       calls r = (t0 ++ [ExecuteSql sql (false, None, Some m)])%list /\
       returned r = Ok (Failed (Some m) (max_retries + 1)) /\
       count is_generate (calls r) = max_retries + 1 /\
       count is_execute_sql (calls r) = max_retries + 1).
Proof.
  intro HN.
  destruct (generate_sql_run question max_retries w) as (d & w' & t & Hr & Hrun).
  eexists. split; [exact Hr|]. cbn [calls returned]. intro Hall.
  destruct (run_from_all_failed _ _ _ _ _ _ Hrun Hall HN)
    as (t0 & sql & m & Ht & Hd & Hc).
  destruct (run_from_attempts _ _ _ _ _ _ Hrun) as [Ha _].
  exists t0, sql, m. rewrite Hd in Ha |- *. cbn [attempts] in Ha.
  repeat split; [exact Ht | lia | lia].
Qed.

(** C2.  When an execution of the run succeeds, it is the last call of
    the run and no execution before it succeeded; the dictionary returned
    is the success dictionary, its [sql] is the text of that execution,
    its [results] what that execution gave, and its [attempts] the number
    of generator calls made up to it, the 1-based index of the attempt. *)
Theorem successful_execution_ends_run question max_retries w r
        t0 sql results error t1 :
  generate_sql question max_retries w = Some r ->
  calls r = (t0 ++ ExecuteSql sql (true, results, error) :: t1)%list ->
  t1 = [] /\
  existsb succeeded t0 = false /\
  returned r = Ok (Succeeded sql results (count is_generate t0)).
Proof.
  intros Hr Ht.
  destruct (generate_sql_run question max_retries w) as (d & w' & t & Hr' & Hrun).
  rewrite Hr' in Hr. injection Hr as <-. cbn [calls returned] in *.
  assert (Hex : existsb succeeded t = true).
  { rewrite Ht, existsb_app. cbn. apply orb_true_r. }
  destruct (run_from_success _ _ _ _ _ _ Hrun Hex)
    as (t0' & sql' & res' & Ht' & Hn & Hd).
  rewrite Ht in Ht'.
  destruct (last_of_its_kind succeeded _ _ _ _ _ Ht' eq_refl Hn)
    as (-> & [= -> -> ->] & ->).
  repeat split; [exact Hn|].
  rewrite Hd, Ht, count_app, count_cons, count_nil.
  cbn [is_generate]. do 2 f_equal. lia.
Qed.

(** C3, as amended.  For every retry budget [max_retries >= 0] the loop
    returns a dictionary whose [attempts] is at least 1 and at most
    [max_retries + 1]. *)
Theorem attempts_within_budget question max_retries w :
  0 <= max_retries ->
  exists r d,
    generate_sql question max_retries w = Some r /\
    returned r = Ok d /\
    1 <= attempts d <= max_retries + 1.
Proof.
  intro HN.
  destruct (generate_sql_run question max_retries w) as (d & w' & t & Hr & Hrun).
  eexists _, d. split; [exact Hr|]. split; [reflexivity|].
  pose proof (run_from_bounds _ _ _ _ _ _ Hrun ltac:(lia)) as Hb.
  destruct d; cbn [attempts]; lia.
Qed.

(** C4, as amended.  When the connection is unavailable, so that
    [self.conn.cursor()] raises with message [m], and the retry budget is
    [max_retries >= 0], nothing is propagated: every attempt's schema
    fetch raises inside the generator call and counts as one attempt, the
    client and the executor are never called, and the loop returns the
    failure dictionary with [attempts = max_retries + 1] and [error = m]. *)
Theorem unavailable_store_exhausts_budget question max_retries w m :
  cursor (conn w) = Raise m ->
  0 <= max_retries ->
  exists r,
    generate_sql question max_retries w = Some r /\
    returned r = Ok (Failed (Some m) (max_retries + 1)) /\
    world r = w /\
    count is_get_schema (calls r) = max_retries + 1 /\
    count is_create (calls r) = 0 /\
    count is_execute_sql (calls r) = 0.
Proof.
  intros Hc HN. unfold generate_sql.
  destruct (while_loop_unavailable (Z.to_nat (max_retries + 1)) w m Hc
              question max_retries 0 None HN)
    as (r & Hr & Hd & Hw & C1 & C2 & C3).
  - rewrite Z.sub_0_r. apply Nat.le_refl.
  - exists r. rewrite C1. repeat split; auto; lia.
Qed.

(** The answer a generator call got from the client decides what it
    returns. *)
Lemma generation_answer question is_retry last_error w req answer :
  In (Create req answer)
     (calls (_generate_with_openai question is_retry last_error w)) ->
  returned (_generate_with_openai question is_retry last_error w)
  = answer_of answer.
Proof.
  rewrite generate_unfold.
  destruct (returned (get_schema w)) as [s|m].
  - destruct (schema_info_of s) as [info|m]; cbn [calls returned].
    + intros [[=]|[[= _ <-]|[[=]|[]]]]. reflexivity.
    + intros [[=]|[[=]|[]]].
  - cbn [calls]. intros [[=]|[[=]|[]]].
Qed.

(** C5, as amended.  On an attempt where the client's answer is empty or
    white space only, the generator call returns the empty string and the
    loop executes it like any other text, with no error message of its
    own.  What follows is the executor's verdict on the empty statement:
    when it fails, [retry_count] goes up by one and its message is the
    [last_error] of the next attempt; when it succeeds, the loop returns
    the success dictionary with the empty [sql]. *)
Theorem blank_answer_is_executed question retry_count last_error w
        req content more :
  In (Create req (Ok (Some content :: more)))
     (calls (attempt question retry_count last_error w)) ->
  PyStr.all_space content = true ->
  exists success results error,
    In (Generate (0 <? retry_count) last_error (Ok EmptyString))
       (calls (attempt question retry_count last_error w)) /\
    In (ExecuteSql EmptyString (success, results, error))
       (calls (attempt question retry_count last_error w)) /\
    returned (attempt question retry_count last_error w) =
    Ok (if success : bool
        then Return (Succeeded EmptyString results (retry_count + 1))
        else Continue (retry_count + 1) error).
Proof.
  intros Hin Hblank.
  pose proof (attempt_run question retry_count last_error w) as Ha.
  cbn zeta in Ha.
  pose proof (generation_run question (0 <? retry_count) last_error w) as Hg.
  set (g := _generate_with_openai question (0 <? retry_count) last_error w) in *.
  assert (Hing : In (Create req (Ok (Some content :: more))) (calls g)).
  { destruct (returned g) as [sql|m].
    - destruct Ha as (success & results & error & Ee & Ha).
      rewrite Ha in Hin. cbn [calls] in Hin.
      apply in_app_or in Hin as [Hin|Hin]; [exact Hin|].
      destruct (execute_sql_run sql (world g)) as (e & _ & Hc & _).
      rewrite Hc in Hin. destruct Hin as [[=]|[]].
    - rewrite Ha in Hin. exact Hin. }
  pose proof (generation_answer _ _ _ _ _ _ Hing) as Hret. fold g in Hret.
  cbn [answer_of first_content] in Hret.
  rewrite (clean_sql_blank _ Hblank) in Hret.
  rewrite Hret in Ha, Hg.
  destruct Ha as (success & results & error & Ee & Ha).
  destruct (execute_sql_run EmptyString (world g)) as (e & Ee' & Hc & _).
  rewrite Ee in Ee'. injection Ee' as <-.
  exists success, results, error. rewrite Ha. cbn [calls returned].
  repeat split.
  - apply in_or_app. left. exact (generation_returns _ _ _ _ _ Hg).
  - apply in_or_app. right. rewrite Hc. left. reflexivity.
Qed.

(** C6, as amended.  The schema is fetched at the start of every
    generator call, retries included, so a run fetches it as many times as
    it makes attempts.  Each request sent to the client is built from the
    schema fetched just before it in the same attempt.  When neither a
    fetch nor a failed execution changes the schema, every fetch of the run
    reports the schema of the world the run started in, so every generator
    call is given the same schema. *)
Theorem schema_fetched_every_attempt question max_retries w :
  exists r d,
    generate_sql question max_retries w = Some r /\
    returned r = Ok d /\
    count is_get_schema (calls r) = attempts d /\
    (forall t0 req answer t1,
        calls r = (t0 ++ Create req answer :: t1)%list ->
        exists t0' s info is_retry last_error,
          t0 = (t0' ++ [GetSchema (Ok s)])%list /\
          schema_info_of s = Ok info /\
          req = chat_request (build_prompt question is_retry last_error info)) /\
    (schema_stable (Conn:=Conn) (Service:=Service) ->
     forall s, In (GetSchema s) (calls r) -> s = schema_of w).
Proof.
  destruct (generate_sql_run question max_retries w) as (d & w' & t & Hr & Hrun).
  eexists _, d. split; [exact Hr|]. cbn [returned calls].
  destruct (run_from_attempts _ _ _ _ _ _ Hrun) as [Ha Hs].
  repeat split.
  - lia.
  - intros t0 req answer t1 Ht.
    exact (run_from_create _ _ _ _ _ _ Hrun _ _ _ _ Ht).
  - intros Hst s Hin.
    exact (while_loop_schema _ Hst _ _ _ _ _ _ Hr s Hin).
Qed.

(** C8.  [execute_sql] returns one triple, of one of two shapes:
    [(True, (columns, rows), None)] or [(False, None, message)].  It is the
    second exactly when the connection raised, and then [message] is the
    text of that exception, unchanged. *)
Theorem execute_sql_outcome sql w :
  exists success results error,
    returned (execute_sql sql w) = Ok (success, results, error) /\
    ((success = true /\ (exists columns rows, results = Some (columns, rows)) /\
      error = None) \/
     (success = false /\ results = None /\ exists m, error = Some m)) /\
    (forall m, cursor (conn w) = Raise m ->
               success = false /\ error = Some m) /\
    (forall m, cursor (conn w) = Ok tt ->
               fst (execute (conn w) sql) = Raise m ->
               success = false /\ error = Some m) /\
    (forall cur, cursor (conn w) = Ok tt ->
                 fst (execute (conn w) sql) = Ok cur ->
                 success = true /\ error = None).
Proof.
  unfold execute_sql, traced, try_except, bind, conn_cursor, cursor_execute.
  cbn [returned world calls].
  destruct (cursor (conn w)) as [[]|m0]; cbn [returned world calls after ret].
  - destruct (execute (conn w) sql) as [[cur|m0] c];
      cbn [returned world calls after ret fst];
      eexists _, _, _; (split; [reflexivity|]).
    + split; [left; eauto 6|].
      split; [intros m [=]|].
      split; [intros m _ [=]|]. auto.
    + split; [right; eauto 6|].
      split; [intros m [=]|].
      split; [intros m _ [= <-]; auto|]. intros cur _ [=].
  - eexists _, _, _; (split; [reflexivity|]).
    split; [right; eauto 6|].
    split; [intros m [= <-]; auto|].
    split; [intros m [=]|]. intros cur [=].
Qed.

(** When the first generator call raises, the run is that call followed
    by the loop entered with one retry used and the message as
    [last_error]. *)
Lemma generate_sql_after_first_raise question max_retries w m :
  0 <= max_retries ->
  returned (_generate_with_openai question (0 <? 0) None w) = Raise m ->
  exists d w' t,
    generate_sql question max_retries w =
    Some {| returned := Ok d; world := w';
            calls := (calls (_generate_with_openai question (0 <? 0) None w)
                      ++ t)%list |} /\
    run_from question max_retries (0 + 1) (Some m) t d.
Proof.
  intros HN Hg. unfold generate_sql.
  replace (Z.to_nat (max_retries + 1)) with (S (Z.to_nat max_retries)) by lia.
  cbn [while_loop].
  replace (0 <=? max_retries) with true by (symmetry; apply Z.leb_le; exact HN).
  pose proof (attempt_run question 0 None w) as Ha. cbn zeta in Ha.
  rewrite Hg in Ha. rewrite Ha. cbn [returned world calls].
  destruct (while_loop_run (Z.to_nat max_retries) question max_retries (0 + 1)
              (Some m) (world (_generate_with_openai question (0 <? 0) None w)))
    as (d & w' & t & -> & Hrun); [lia|].
  exists d, w', t. split; [reflexivity|exact Hrun].
Qed.

(** C9.  An exception raised by the generator call never leaves the loop:
    the loop always returns a dictionary, and with a budget
    [max_retries >= 0] it makes at least one attempt.  The attempt counts
    once, like any other: [retry_count] goes up by one and [attempts] is
    the number of generator calls made.  The exception's message is the
    [last_error] of the next attempt: after a generator call that raised
    [m], either the budget is used up and [m] is the [error] returned, or
    the next generator call is a retry given [m].  In particular, when the
    first generator call raises [m], the run goes on from there in one of
    these two ways. *)
Theorem generator_exception_consumes_retry question max_retries w :
  (forall retry_count last_error w' m,
      returned (_generate_with_openai question (0 <? retry_count) last_error w')
      = Raise m ->
      returned (attempt question retry_count last_error w')
      = Ok (Continue (retry_count + 1) (Some m))) /\
  exists r d,
    generate_sql question max_retries w = Some r /\
    returned r = Ok d /\
    attempts d = count is_generate (calls r) /\
    (0 <= max_retries -> 1 <= count is_generate (calls r)) /\
    (forall m,
        0 <= max_retries ->
        returned (_generate_with_openai question false None w) = Raise m ->
        exists t1,
          calls r = (calls (_generate_with_openai question false None w)
                     ++ t1)%list /\
          ((t1 = [] /\ d = Failed (Some m) (max_retries + 1)) \/
           (exists s mid g t2,
               t1 = (GetSchema s :: mid ++ Generate true (Some m) g :: t2)%list /\
               count is_generate mid = 0))) /\
    (forall t0 is_retry last_error m t1,
        calls r = (t0 ++ Generate is_retry last_error (Raise m) :: t1)%list ->
        (t1 = [] /\ d = Failed (Some m) (max_retries + 1)) \/
        (exists s mid g t2,
            t1 = (GetSchema s :: mid ++ Generate true (Some m) g :: t2)%list /\
            count is_generate mid = 0)).
Proof.
  split.
  - intros rc le w' m Hg.
    pose proof (attempt_run question rc le w') as Ha. cbn zeta in Ha.
    rewrite Hg in Ha. rewrite Ha. reflexivity.
  - destruct (generate_sql_run question max_retries w)
      as (d & w' & t & Hr & Hrun).
    eexists _, d. split; [exact Hr|]. cbn [returned calls].
    destruct (run_from_attempts _ _ _ _ _ _ Hrun) as [Ha _].
    split; [reflexivity|]. split; [lia|]. split; [|split].
    + intro HN.
      pose proof (run_from_bounds _ _ _ _ _ _ Hrun ltac:(lia)) as Hb.
      destruct d; cbn [attempts] in Ha; lia.
    + intros m HN Hg.
      destruct (generate_sql_after_first_raise question max_retries w m HN Hg)
        as (d1 & w1 & t1 & Hr1 & Hrun1).
      rewrite Hr in Hr1. injection Hr1 as -> -> ->.
      exists t1. split; [reflexivity|].
      apply (run_from_next question max_retries 0 m t1 d1); [lia|exact Hrun1].
    + intros t0 ir le m t1 Ht.
      exact (run_from_generation_raised _ _ _ _ _ _ Hrun (Z.le_refl 0)
               _ _ _ _ _ Ht).
Qed.

(** C10.  A statement that runs without error and has no result set
    makes [execute_sql] return [(True, ([], []), None)]: success, with no
    columns and no rows. *)
Theorem statement_without_result_set sql w c :
  cursor (conn w) = Ok tt ->
  execute (conn w) sql = (Ok None, c) ->
  returned (execute_sql sql w) = Ok (true, Some ([], []), None).
Proof.
  intros Hc He.
  unfold execute_sql, traced, try_except, bind, conn_cursor, cursor_execute.
  cbn [returned world calls]. rewrite Hc. cbn [returned world calls after ret].
  rewrite He. reflexivity.
Qed.

End Claims.

(** C7, as amended.  The cleaning of the client's answer turns the
    fenced answer of the example into [SELECT 1;].  It trims the answer;
    when the trimmed answer opens with a fence, the opener and everything
    from the next fence on are removed and no fence is left in the result;
    a body wrapped between one of the two openers and a closing fence comes
    out trimmed and otherwise whole, provided the closing fence is the
    first one after the opener and a body after the bare opener does not
    begin with [sql].  An answer that, trimmed, does not open with a fence
    is only trimmed. *)
Theorem clean_sql_strips_fences :
  clean_sql ("```sql" ++ newline ++ "SELECT 1;" ++ newline ++ "```")
  = "SELECT 1;" /\
  (forall content,
      PyStr.startswith (PyStr.strip content) fence = true ->
      PyStr.contains fence (clean_sql content) = false) /\
  (forall opener body,
      In opener prefixes ->
      PyStr.contains fence (body ++ "``") = false ->
      (opener = fence -> PyStr.startswith body "sql" = false) ->
      clean_sql (opener ++ body ++ fence) = PyStr.strip body) /\
  (forall content,
      PyStr.startswith (PyStr.strip content) fence = false ->
      clean_sql content = PyStr.strip content).
Proof.
  split; [reflexivity|]. split; [|split].
  - exact clean_sql_no_fence.
  - exact clean_sql_wrapped.
  - intros content Hs. rewrite clean_sql_unfold.
    assert (H1 : strip_prefix (PyStr.strip content) "```sql" = PyStr.strip content).
    { unfold strip_prefix.
      destruct (PyStr.startswith (PyStr.strip content) "```sql") eqn:E;
        [|reflexivity].
      unfold PyStr.startswith in *.
      rewrite (prefix_trans fence "```sql" _ eq_refl E) in Hs. discriminate. }
    rewrite H1. unfold strip_prefix.
    change "```" with fence. rewrite Hs. reflexivity.
Qed.

(** * The program on the concrete collaborators *)

Import Scenario.

Example clean_fenced :
  clean_sql ("```sql" ++ newline ++ "SELECT 1;" ++ newline ++ "```")
  = "SELECT 1;".
Proof. reflexivity. Qed.

Example clean_bare_fence :
  clean_sql ("```" ++ newline ++ "SELECT 1;" ++ newline ++ "```") = "SELECT 1;".
Proof. reflexivity. Qed.

Example clean_unfenced : clean_sql "  SELECT 1; " = "SELECT 1;".
Proof. reflexivity. Qed.

Example split_pieces : PyStr.split "a```b``````c" "```" = ["a"; "b"; EmptyString; "c"].
Proof. reflexivity. Qed.

Example split_overlap : PyStr.split "a````" "```" = ["a"; "`"].
Proof. reflexivity. Qed.

Example strip_both : PyStr.strip ("  " ++ newline ++ " x y " ++ newline) = "x y".
Proof. reflexivity. Qed.

Example shop_schema_fetched :
  schema_of (start [] (says "SELECT 1;")) = Ok shop_schema.
Proof. reflexivity. Qed.

Example shop_schema_rendered : schema_info_of shop_schema = Ok shop_schema_info.
Proof. reflexivity. Qed.

(** The typo of the first answer is repaired by the second. *)
Example repaired_on_second_attempt :
  option_map returned
    (generate_sql "all users" 3
       (start [says "SELECT * FROM user"] (says "SELECT * FROM users")))
  = Some (Ok (Succeeded "SELECT * FROM users"
                (Some (["id"; "name"], two_users)) 2)).
Proof. vm_compute. reflexivity. Qed.

(** ** The shop's schema is stable *)

Lemma schema_of_open users (s : scripted) :
  schema_of {| conn := Open users; client := s |} = Ok shop_schema.
Proof. reflexivity. Qed.

Lemma shop_execute_open users sql :
  exists users', snd (shop_execute (Open users) sql) = Open users'.
Proof.
  unfold shop_execute.
  repeat match goal with
         | |- context [String.eqb sql ?x] => destruct (String.eqb sql x)
         end; cbn [snd]; eauto.
Qed.

Lemma shop_schema_stable : schema_stable (Conn:=shop) (Service:=scripted).
Proof.
  split.
  - intros [[users|] s]; reflexivity.
  - intros [[users|] s] sql results error _; [|reflexivity].
    destruct (shop_execute_open users sql) as [users' Hu].
    unfold execute_sql, traced, try_except, bind, conn_cursor, cursor_execute.
    cbn [returned world calls conn client cursor execute shop_sqlite3].
    destruct (shop_execute (Open users) sql) as [[cur|m] c] eqn:He;
      cbn [snd] in Hu; subst c;
      cbn [returned world calls after ret]; reflexivity.
Qed.

(** ** The claims at concrete runs *)

(** C1 at a client that always proposes a table that does not exist,
    with the default budget. *)
Lemma failing_run_uses_all_attempts_witness :
  0 <= 3 /\
  exists r,
    generate_sql "all users" 3 (start [] (says "SELECT * FROM nonexistent"))
    = Some r /\
    every_execution_failed (calls r) = true /\
    returned r = Ok (Failed (Some "no such table: nonexistent") (3 + 1)) /\
    count is_execute_sql (calls r) = 3 + 1.
Proof.
  split; [lia|].
  destruct (failing_run_uses_all_attempts "all users" 3
              (start [] (says "SELECT * FROM nonexistent")) ltac:(lia))
    as (r & Hr & Himp).
  exists r. split; [exact Hr|].
  assert (Hall : every_execution_failed (calls r) = true).
  { vm_compute in Hr. injection Hr as <-. reflexivity. }
  split; [exact Hall|].
  destruct (Himp Hall) as (t0 & sql & m & Ht & Hd & _ & Hc).
  split; [|exact Hc].
  rewrite Hd. vm_compute in Hr. injection Hr as <-.
  cbn [calls] in Ht. apply (f_equal (@rev call)) in Ht.
  rewrite rev_app_distr in Ht. cbn in Ht. injection Ht as _ <- _.
  reflexivity.
Defined.

(** C2 at the run repaired on its second attempt. *)
Lemma successful_execution_ends_run_witness :
  exists r t0,
    generate_sql "all users" 3
      (start [says "SELECT * FROM user"] (says "SELECT * FROM users"))
    = Some r /\
    calls r = (t0 ++ ExecuteSql "SELECT * FROM users"
                       (true, Some (["id"; "name"], two_users), None) :: [])%list /\
    returned r = Ok (Succeeded "SELECT * FROM users"
                       (Some (["id"; "name"], two_users)) (count is_generate t0)) /\
    count is_generate t0 = 2.
Proof.
  run_as r Hr.
  exists r, (removelast (calls r)).
  assert (Ht : calls r =
               (removelast (calls r)
                ++ ExecuteSql "SELECT * FROM users"
                     (true, Some (["id"; "name"], two_users), None) :: [])%list)
    by (rewrite Hc; reflexivity).
  split; [reflexivity|]. split; [exact Ht|].
  destruct (successful_execution_ends_run _ _ _ _ _ _ _ _ _ Hr Ht)
    as (_ & _ & Hd).
  split; [exact Hd|]. rewrite Hc. reflexivity.
Defined.

(** C3, as amended, at the default budget. *)
Lemma attempts_within_budget_witness :
  0 <= 3 /\
  exists r d,
    generate_sql "all users" 3 (start [] (says "SELECT * FROM users")) = Some r /\
    returned r = Ok d /\
    1 <= attempts d <= 3 + 1.
Proof.
  split; [lia|]. apply attempts_within_budget. lia.
Defined.

(** C3 as stated fails at the budget [-1]: the loop body never runs and
    [attempts] is 0. *)
Lemma negative_budget_makes_no_attempt :
  exists r d,
    generate_sql "all users" (-1) (start [] (says "SELECT * FROM users"))
    = Some r /\
    returned r = Ok d /\
    d = Failed None 0 /\
    ~ (1 <= attempts d /\ attempts d <= -1 + 1).
Proof.
  eexists _, _. split; [vm_compute; reflexivity|].
  split; [reflexivity|]. split; [reflexivity|]. cbn. lia.
Qed.

(** C4, as amended, at the closed connection. *)
Lemma unavailable_store_exhausts_budget_witness :
  cursor (conn (disconnected (says "SELECT * FROM users"))) = Raise closed_message /\
  0 <= 3 /\
  exists r,
    generate_sql "all users" 3 (disconnected (says "SELECT * FROM users"))
    = Some r /\
    returned r = Ok (Failed (Some closed_message) (3 + 1)) /\
    world r = disconnected (says "SELECT * FROM users") /\
    count is_get_schema (calls r) = 3 + 1 /\
    count is_create (calls r) = 0 /\
    count is_execute_sql (calls r) = 0.
Proof.
  split; [reflexivity|]. split; [lia|].
  apply unavailable_store_exhausts_budget; [reflexivity | lia].
Defined.

(** C4 as stated fails at the closed connection: nothing is raised to
    the caller, four attempts are made and the run ends in the failure
    dictionary. *)
Lemma disconnected_store_is_retried :
  exists r,
    generate_sql "all users" 3 (disconnected (says "SELECT * FROM users"))
    = Some r /\
    returned r = Ok (Failed (Some closed_message) 4) /\
    (forall m, returned r <> Raise m) /\
    count is_generate (calls r) = 4 /\
    attempts (Failed (Some closed_message) 4) <> 0.
Proof.
  eexists. split; [vm_compute; reflexivity|].
  split; [reflexivity|]. split; [discriminate|].
  split; [reflexivity|]. discriminate.
Qed.

(** C5, as amended, at a client that answers with blanks: the empty
    statement is executed, and the shop accepts it. *)
Lemma blank_answer_is_executed_witness :
  In (Create (chat_request (first_prompt "all users" shop_schema_info))
             (Ok [Some "   "]))
     (calls (attempt "all users" 0 None (start [] (says "   ")))) /\
  PyStr.all_space "   " = true /\
  exists success results error,
    In (ExecuteSql EmptyString (success, results, error))
       (calls (attempt "all users" 0 None (start [] (says "   ")))) /\
    returned (attempt "all users" 0 None (start [] (says "   "))) =
    Ok (if success : bool
        then Return (Succeeded EmptyString results (0 + 1))
        else Continue (0 + 1) error).
Proof.
  assert (Hin : In (Create (chat_request (first_prompt "all users" shop_schema_info))
                           (Ok [Some "   "]))
                   (calls (attempt "all users" 0 None (start [] (says "   "))))).
  { vm_compute. right. left. reflexivity. }
  split; [exact Hin|]. split; [reflexivity|].
  destruct (blank_answer_is_executed _ _ _ _ _ _ _ Hin eq_refl)
    as (success & results & error & _ & Hex & Hret).
  exists success, results, error. split; assumption.
Defined.

(** C5 as stated fails at a client that answers with blanks: the empty
    statement runs, and the loop returns success at the first attempt,
    with no error and no retry. *)
Lemma blank_answer_can_succeed :
  exists r,
    generate_sql "all users" 3 (start [] (says "   ")) = Some r /\
    returned r = Ok (Succeeded EmptyString (Some ([], [])) 1) /\
    In (ExecuteSql EmptyString (true, Some ([], []), None)) (calls r) /\
    count is_generate (calls r) = 1.
Proof.
  eexists. split; [vm_compute; reflexivity|].
  split; [reflexivity|]. split; [|reflexivity].
  cbn [calls]. do 3 right. left. reflexivity.
Qed.

(** C6, as amended, at the run repaired on its second attempt. *)
Lemma schema_fetched_every_attempt_witness :
  schema_stable (Conn:=shop) (Service:=scripted) /\
  exists r d,
    generate_sql "all users" 3
      (start [says "SELECT * FROM user"] (says "SELECT * FROM users"))
    = Some r /\
    returned r = Ok d /\
    count is_get_schema (calls r) = attempts d /\
    (forall s, In (GetSchema s) (calls r) -> s = Ok shop_schema).
Proof.
  split; [exact shop_schema_stable|].
  destruct (schema_fetched_every_attempt "all users" 3
              (start [says "SELECT * FROM user"] (says "SELECT * FROM users")))
    as (r & d & Hr & Hd & Hc & _ & Hst).
  exists r, d. repeat split; try assumption.
  exact (Hst shop_schema_stable).
Defined.

(** C6 as stated fails at the run repaired on its second attempt: the
    schema is fetched twice, once for each attempt. *)
Lemma schema_fetched_twice :
  exists r,
    generate_sql "all users" 3
      (start [says "SELECT * FROM user"] (says "SELECT * FROM users"))
    = Some r /\
    count is_get_schema (calls r) = 2 /\
    count is_get_schema (calls r) <> 1.
Proof.
  eexists. split; [vm_compute; reflexivity|].
  split; [reflexivity|]. discriminate.
Qed.

(** C7, as amended, at the fenced answer of the example and at an
    answer that opens with a sentence. *)
Lemma clean_sql_strips_fences_witness :
  PyStr.startswith
    (PyStr.strip ("```sql" ++ newline ++ "SELECT 1;" ++ newline ++ "```"))
    fence = true /\
  PyStr.contains fence
    (clean_sql ("```sql" ++ newline ++ "SELECT 1;" ++ newline ++ "```")) = false /\
  In "```sql" prefixes /\
  PyStr.contains fence ((newline ++ "SELECT 1;" ++ newline) ++ "``") = false /\
  clean_sql ("```sql" ++ (newline ++ "SELECT 1;" ++ newline) ++ fence)
  = PyStr.strip (newline ++ "SELECT 1;" ++ newline) /\
  PyStr.startswith (PyStr.strip (" Query: SELECT 1; ")) fence = false /\
  clean_sql " Query: SELECT 1; " = PyStr.strip " Query: SELECT 1; ".
Proof.
  destruct clean_sql_strips_fences as (_ & Hno & Hwrap & Hbare).
  split; [reflexivity|]. split; [apply Hno; reflexivity|].
  split; [left; reflexivity|]. split; [reflexivity|].
  split; [apply Hwrap; [left; reflexivity | reflexivity | discriminate]|].
  split; [reflexivity|]. apply Hbare. reflexivity.
Defined.

(** C7 as stated fails: an answer that opens with a sentence keeps both
    fences of the block that follows; a fence of four backticks leaves a
    backtick and the language tag; after the opener of a [sqlite] block
    the rest of the tag is kept. *)
Lemma clean_sql_leaves_markers :
  clean_sql ("Here is the query:" ++ newline ++ "```sql" ++ newline
             ++ "SELECT 1;" ++ newline ++ "```")
  = "Here is the query:" ++ newline ++ "```sql" ++ newline
    ++ "SELECT 1;" ++ newline ++ "```" /\
  PyStr.contains fence
    (clean_sql ("Here is the query:" ++ newline ++ "```sql" ++ newline
                ++ "SELECT 1;" ++ newline ++ "```")) = true /\
  clean_sql ("````sql" ++ newline ++ "SELECT 1;" ++ newline ++ "````")
  = "`sql" ++ newline ++ "SELECT 1;" /\
  clean_sql ("```sqlite" ++ newline ++ "SELECT 1;" ++ newline ++ "```")
  = "ite" ++ newline ++ "SELECT 1;".
Proof. repeat split. Qed.

(** C8 at a statement on a table that does not exist. *)
Lemma execute_sql_outcome_witness :
  cursor (conn (start [] (says "SELECT 1;"))) = Ok tt /\
  fst (execute (conn (start [] (says "SELECT 1;"))) "SELECT * FROM nonexistent")
  = Raise "no such table: nonexistent" /\
  exists results,
    returned (execute_sql "SELECT * FROM nonexistent" (start [] (says "SELECT 1;")))
    = Ok (false, results, Some "no such table: nonexistent").
Proof.
  split; [reflexivity|]. split; [reflexivity|].
  destruct (execute_sql_outcome "SELECT * FROM nonexistent"
              (start [] (says "SELECT 1;")))
    as (success & results & error & Hret & _ & _ & Hraise & _).
  destruct (Hraise "no such table: nonexistent" eq_refl eq_refl) as [-> ->].
  exists results. exact Hret.
Defined.

(** C9 at a client whose first call fails in transport: the run makes a
    second attempt, whose generator call is a retry given the message of
    the exception, and succeeds there. *)
Lemma generator_exception_consumes_retry_witness :
  0 <= 3 /\
  returned (_generate_with_openai "all users" false None
              (start [Raise "Connection error."] (says "SELECT * FROM users")))
  = Raise "Connection error." /\
  returned (attempt "all users" 0 None
              (start [Raise "Connection error."] (says "SELECT * FROM users")))
  = Ok (Continue (0 + 1) (Some "Connection error.")) /\
  exists r t0 t1,
    generate_sql "all users" 3
      (start [Raise "Connection error."] (says "SELECT * FROM users"))
    = Some r /\
    calls r = (t0 ++ Generate false None (Raise "Connection error.") :: t1)%list /\
    (exists s mid g t2,
        t1 = (GetSchema s :: mid
              ++ Generate true (Some "Connection error.") g :: t2)%list) /\
    In (Generate true (Some "Connection error.") (Ok "SELECT * FROM users"))
       (calls r) /\
    returned r = Ok (Succeeded "SELECT * FROM users"
                       (Some (["id"; "name"], two_users)) 2) /\
    count is_generate (calls r) = 2.
Proof.
  destruct (generator_exception_consumes_retry "all users" 3
              (start [Raise "Connection error."] (says "SELECT * FROM users")))
    as (Hstep & r & d & Hr & Hd & Ha & Hone & Hfirst & Htrace).
  split; [lia|]. split; [reflexivity|].
  split; [apply Hstep; reflexivity|].
  assert (Hc := Hr). vm_compute in Hc. injection Hc as Hc.
  exists r, (firstn 2 (calls r)), (skipn 3 (calls r)).
  assert (Ht : calls r =
               (firstn 2 (calls r)
                ++ Generate false None (Raise "Connection error.")
                   :: skipn 3 (calls r))%list)
    by (rewrite <- Hc; reflexivity).
  split; [exact Hr|]. split; [exact Ht|].
  split.
  - destruct (Htrace _ _ _ _ _ Ht)
      as [[Hnil _]|(s & mid & g & t2 & Hnext & _)].
    + rewrite <- Hc in Hnil. discriminate Hnil.
    + eauto.
  - rewrite <- Hc. cbn [calls returned]. split; [|split; reflexivity].
    do 5 right. left. reflexivity.
Defined.

(** C10 at an [INSERT]. *)
Lemma statement_without_result_set_witness :
  cursor (conn (start [] (says "SELECT 1;"))) = Ok tt /\
  execute (conn (start [] (says "SELECT 1;"))) "INSERT INTO users VALUES (3, 'Cy')"
  = (Ok None, Open (two_users ++ [[PyInt 3; PyStr "Cy"]])%list) /\
  returned (execute_sql "INSERT INTO users VALUES (3, 'Cy')"
              (start [] (says "SELECT 1;")))
  = Ok (true, Some ([], []), None).
Proof.
  split; [reflexivity|]. split; [reflexivity|].
  eapply statement_without_result_set; reflexivity.
Defined.

(** * Further properties of the program *)

(** ** Cleaning the answer, continued *)

Lemma lstrip_starts_clean s : starts_clean (PyStr.lstrip s) = true.
Proof.
  induction s as [|c s IH]; [reflexivity|].
  cbn [PyStr.lstrip]. destruct (PyStr.isspace c) eqn:E; [exact IH|].
  cbn [starts_clean]. rewrite E. reflexivity.
Qed.

Lemma lstrip_of_clean s : starts_clean s = true -> PyStr.lstrip s = s.
Proof.
  destruct s as [|c s]; [reflexivity|]. cbn [starts_clean PyStr.lstrip].
  destruct (PyStr.isspace c); [discriminate|reflexivity].
Qed.

Lemma rstrip_starts_clean s :
  starts_clean s = true -> starts_clean (PyStr.rstrip s) = true.
Proof.
  destruct s as [|c s]; [reflexivity|]. cbn [starts_clean PyStr.rstrip].
  destruct (PyStr.isspace c) eqn:E; [discriminate|].
  rewrite andb_false_r. cbn [starts_clean]. rewrite E. reflexivity.
Qed.

Lemma rstrip_idempotent s : PyStr.rstrip (PyStr.rstrip s) = PyStr.rstrip s.
Proof.
  induction s as [|c s IH]; [reflexivity|].
  cbn [PyStr.rstrip].
  destruct (PyStr.is_empty (PyStr.rstrip s) && PyStr.isspace c) eqn:E;
    [reflexivity|].
  cbn [PyStr.rstrip]. rewrite IH, E. reflexivity.
Qed.

Lemma strip_starts_clean s : starts_clean (PyStr.strip s) = true.
Proof. apply rstrip_starts_clean, lstrip_starts_clean. Qed.

Lemma strip_idempotent s : PyStr.strip (PyStr.strip s) = PyStr.strip s.
Proof.
  unfold PyStr.strip at 1.
  rewrite (lstrip_of_clean _ (strip_starts_clean s)).
  unfold PyStr.strip. apply rstrip_idempotent.
Qed.

Lemma strip_when_unfenced content :
  PyStr.startswith (PyStr.strip content) fence = false ->
  clean_sql content = PyStr.strip content.
Proof.
  intro Hs. rewrite clean_sql_unfold.
  assert (H1 : strip_prefix (PyStr.strip content) "```sql" = PyStr.strip content).
  { unfold strip_prefix.
    destruct (PyStr.startswith (PyStr.strip content) "```sql") eqn:E;
      [|reflexivity].
    unfold PyStr.startswith in *.
    rewrite (prefix_trans fence "```sql" _ eq_refl E) in Hs. discriminate. }
  rewrite H1. unfold strip_prefix.
  change "```" with fence. rewrite Hs. reflexivity.
Qed.

(** X1.  An answer that, trimmed, does not open with a fence is only
    trimmed: nothing else is removed from it, fences further on
    included. *)
Theorem clean_sql_unfenced content :
  PyStr.startswith (PyStr.strip content) fence = false ->
  clean_sql content = PyStr.strip content.
Proof. exact (strip_when_unfenced content). Qed.

Lemma clean_sql_unfenced_witness :
  PyStr.startswith (PyStr.strip (" Here: ```sql SELECT 1; ```" ++ newline)) fence
  = false /\
  clean_sql (" Here: ```sql SELECT 1; ```" ++ newline)
  = "Here: ```sql SELECT 1; ```".
Proof.
  split; [reflexivity|].
  rewrite clean_sql_unfenced; reflexivity.
Defined.

Lemma strip_prefix_trimmed s prefix :
  PyStr.strip s = s -> PyStr.strip (strip_prefix s prefix) = strip_prefix s prefix.
Proof.
  intro Hs. unfold strip_prefix.
  destruct (PyStr.startswith s prefix); [apply strip_idempotent | exact Hs].
Qed.

(** X2.  What [clean_sql] returns is trimmed, and cleaning it again
    changes nothing. *)
Theorem clean_sql_idempotent content :
  PyStr.strip (clean_sql content) = clean_sql content /\
  clean_sql (clean_sql content) = clean_sql content.
Proof.
  assert (Ht : PyStr.strip (clean_sql content) = clean_sql content).
  { rewrite clean_sql_unfold.
    apply strip_prefix_trimmed, strip_prefix_trimmed, strip_idempotent. }
  split; [exact Ht|].
  rewrite (strip_when_unfenced (clean_sql content)); [exact Ht|].
  rewrite Ht.
  destruct (PyStr.startswith (PyStr.strip content) fence) eqn:E.
  - pose proof (clean_sql_no_fence _ E) as Hc.
    apply contains_prefix in Hc. exact Hc.
  - rewrite (strip_when_unfenced _ E). exact E.
Qed.

Lemma hd_split_none sep s :
  PyStr.contains sep s = false ->
  hd EmptyString (PyStr.split s sep) = s.
Proof.
  unfold PyStr.split. induction s as [|c s IH]; intro Hc; [reflexivity|].
  rewrite contains_cons in Hc. apply orb_false_elim in Hc as [Hp Hc].
  cbn [PyStr.split_from]. rewrite Hp. specialize (IH Hc).
  destruct (PyStr.split_from sep 0 s); cbn [hd] in *; rewrite IH; reflexivity.
Qed.

Lemma hd_split_before body rest :
  PyStr.contains fence (body ++ "``") = false ->
  hd EmptyString (PyStr.split (body ++ fence ++ rest) fence) = body.
Proof.
  unfold PyStr.split. induction body as [|c b IH]; intro Hc;
    [destruct rest; reflexivity|].
  cbn [append] in Hc. rewrite contains_cons in Hc.
  apply orb_false_elim in Hc as [Hp Hc].
  cbn [append PyStr.split_from].
  replace (String c (b ++ fence ++ rest))
    with (String c (b ++ "``") ++ "`" ++ rest)
    by (change (String c (b ++ "``") ++ "`" ++ rest)
          with (String c ((b ++ "``") ++ "`" ++ rest));
        rewrite append_assoc; reflexivity).
  rewrite (prefix_append_false fence _ ("`" ++ rest) Hp)
    by (cbn [String.length]; rewrite length_append; cbn; lia).
  specialize (IH Hc).
  destruct (PyStr.split_from fence 0 (b ++ fence ++ rest)); cbn [hd] in *;
    rewrite IH; reflexivity.
Qed.

Lemma sql_then_fence_rest body rest :
  PyStr.startswith body "sql" = false ->
  PyStr.startswith (body ++ fence ++ rest) "sql" = false.
Proof.
  unfold PyStr.startswith. intro Hs.
  destruct (String.prefix "sql" (body ++ fence ++ rest)) eqn:E;
    [exfalso|reflexivity].
  destruct body as [|c1 [|c2 [|c3 b]]].
  - cbn [append] in E. apply prefix_cons in E as [E _]. discriminate E.
  - cbn [append] in E.
    apply prefix_cons in E as [_ E]. apply prefix_cons in E as [E _].
    discriminate E.
  - cbn [append] in E.
    apply prefix_cons in E as [_ E]. apply prefix_cons in E as [_ E].
    apply prefix_cons in E as [E _]. discriminate E.
  - rewrite (prefix_append_false _ _ (fence ++ rest) Hs) in E by (cbn; lia).
    discriminate E.
Qed.

(** The two passes of the loop over [prefixes], on a text that opens
    with one of them. *)
Lemma strip_prefixes_opened opener tail piece :
  In opener prefixes ->
  (opener = fence -> PyStr.startswith tail "sql" = false) ->
  hd EmptyString (PyStr.split tail fence) = piece ->
  PyStr.contains fence (PyStr.strip piece) = false ->
  strip_prefix (strip_prefix (opener ++ tail) "```sql") "```"
  = PyStr.strip piece.
Proof.
  intros Hin Hsql Hhd Hclean.
  destruct Hin as [<-|[<-|[]]].
  - replace (strip_prefix ("```sql" ++ tail) "```sql") with (PyStr.strip piece).
    + apply strip_prefix_none; [cbn; auto | exact Hclean].
    + unfold strip_prefix.
      replace (PyStr.startswith ("```sql" ++ tail) "```sql") with true
        by (symmetry; apply prefix_append).
      change (PyStr.drop (String.length "```sql") ("```sql" ++ tail)) with tail.
      rewrite Hhd. reflexivity.
  - replace (strip_prefix ("```" ++ tail) "```sql") with ("```" ++ tail).
    + unfold strip_prefix.
      replace (PyStr.startswith ("```" ++ tail) "```") with true
        by (symmetry; apply prefix_append).
      change (PyStr.drop (String.length "```") ("```" ++ tail)) with tail.
      rewrite Hhd. reflexivity.
    + unfold strip_prefix.
      replace (PyStr.startswith ("```" ++ tail) "```sql") with false;
        [reflexivity|].
      symmetry. pose proof (Hsql eq_refl) as Hf.
      unfold PyStr.startswith in *.
      change "```sql" with ("```" ++ "sql").
      cbn [append String.prefix].
      repeat (destruct (ascii_dec _ _); [|congruence]). exact Hf.
Qed.

Lemma strip_keeps_clean sub s :
  PyStr.contains sub s = false -> PyStr.contains sub (PyStr.strip s) = false.
Proof.
  intro Hc. destruct (PyStr.contains sub (PyStr.strip s)) eqn:E; [|reflexivity].
  apply contains_strip in E. congruence.
Qed.

(** X3.  A fence that is opened and never closed: when the trimmed
    answer is an opener followed by a body without a fence, the result is
    the trimmed body. *)
Theorem clean_sql_unclosed content opener body :
  PyStr.strip content = opener ++ body ->
  In opener prefixes ->
  PyStr.contains fence body = false ->
  (opener = fence -> PyStr.startswith body "sql" = false) ->
  clean_sql content = PyStr.strip body.
Proof.
  intros Hs Hin Hc Hsql. rewrite clean_sql_unfold, Hs.
  apply strip_prefixes_opened; auto.
  - apply hd_split_none. exact Hc.
  - apply strip_keeps_clean. exact Hc.
Qed.

Lemma clean_sql_unclosed_witness :
  PyStr.strip ("```sql" ++ newline ++ "SELECT 1;") = "```sql" ++ newline ++ "SELECT 1;" /\
  In "```sql" prefixes /\
  PyStr.contains fence (newline ++ "SELECT 1;") = false /\
  clean_sql ("```sql" ++ newline ++ "SELECT 1;") = "SELECT 1;".
Proof.
  split; [reflexivity|]. split; [left; reflexivity|]. split; [reflexivity|].
  rewrite (clean_sql_unclosed _ "```sql" (newline ++ "SELECT 1;"));
    [reflexivity | reflexivity | left; reflexivity | reflexivity | discriminate].
Defined.

(** X4.  Whatever follows the closing fence is dropped: when the
    trimmed answer is an opener, a body, the first fence after the opener
    and any text, the result is the trimmed body. *)
Theorem clean_sql_drops_trailer content opener body rest :
  PyStr.strip content = opener ++ body ++ fence ++ rest ->
  In opener prefixes ->
  PyStr.contains fence (body ++ "``") = false ->
  (opener = fence -> PyStr.startswith body "sql" = false) ->
  clean_sql content = PyStr.strip body.
Proof.
  intros Hs Hin Hc Hsql. rewrite clean_sql_unfold, Hs.
  apply strip_prefixes_opened; auto.
  - intro Ho. apply sql_then_fence_rest. auto.
  - apply hd_split_before. exact Hc.
  - apply strip_keeps_clean.
    destruct (PyStr.contains fence body) eqn:E; [|reflexivity].
    rewrite (contains_append _ _ "``" E) in Hc. discriminate.
Qed.

Lemma clean_sql_drops_trailer_witness :
  PyStr.strip ("```sql" ++ newline ++ "SELECT 1;" ++ newline ++ "``` This selects one.")
  = "```sql" ++ (newline ++ "SELECT 1;" ++ newline) ++ fence ++ " This selects one." /\
  In "```sql" prefixes /\
  PyStr.contains fence ((newline ++ "SELECT 1;" ++ newline) ++ "``") = false /\
  clean_sql ("```sql" ++ newline ++ "SELECT 1;" ++ newline ++ "``` This selects one.")
  = "SELECT 1;".
Proof.
  split; [reflexivity|]. split; [left; reflexivity|]. split; [reflexivity|].
  rewrite (clean_sql_drops_trailer _ "```sql" (newline ++ "SELECT 1;" ++ newline)
             " This selects one.");
    [reflexivity | reflexivity | left; reflexivity | reflexivity | discriminate].
Defined.

(** ** The prompts *)

Lemma prefix_contains sub s :
  String.prefix sub s = true -> PyStr.contains sub s = true.
Proof.
  intro Hp. destruct s; cbn [PyStr.contains]; rewrite Hp; reflexivity.
Qed.

Lemma contains_here sub rest : PyStr.contains sub (sub ++ rest) = true.
Proof. apply prefix_contains, prefix_append. Qed.

Lemma contains_later sub a s :
  PyStr.contains sub s = true -> PyStr.contains sub (a ++ s) = true.
Proof.
  intro Hc. induction a as [|c a IH]; [exact Hc|].
  cbn [append]. rewrite contains_cons, IH. apply orb_true_r.
Qed.

Ltac find_part :=
  repeat first [apply contains_here | apply contains_later].

Lemma first_prompt_parts question info :
  PyStr.contains question (first_prompt question info) = true /\
  PyStr.contains info (first_prompt question info) = true.
Proof. unfold first_prompt. split; find_part. Qed.

Lemma repair_prompt_parts e question info :
  PyStr.contains e (repair_prompt e question info) = true /\
  PyStr.contains question (repair_prompt e question info) = true /\
  PyStr.contains info (repair_prompt e question info) = true.
Proof. unfold repair_prompt. repeat split; find_part. Qed.

Section Prompts.

Context {Conn Service : Type} `{Sqlite3 Conn} `{ChatClient Service}.

Implicit Types w : World Conn Service.

(** The one request a generator call can send. *)
Lemma generation_request question is_retry last_error w req answer :
  In (Create req answer)
     (calls (_generate_with_openai question is_retry last_error w)) ->
  exists s info,
    returned (get_schema w) = Ok s /\
    schema_info_of s = Ok info /\
    req = chat_request (build_prompt question is_retry last_error info).
Proof.
  rewrite generate_unfold.
  destruct (returned (get_schema w)) as [s|m].
  - destruct (schema_info_of s) as [info|m] eqn:Ei; cbn [calls].
    + intros [[=]|[[= E1 E2]|[[=]|[]]]]. subst req. eauto.
    + intros [[=]|[[=]|[]]].
  - cbn [calls]. intros [[=]|[[=]|[]]].
Qed.

(** X5.  Every request a generator call sends to the client is made of
    the system message and one user message, and the user message contains
    the question and the rendering of the schema fetched by that call. *)
Theorem request_names_question_and_schema question is_retry last_error w
        req answer :
  In (Create req answer)
     (calls (_generate_with_openai question is_retry last_error w)) ->
  exists s info prompt,
    returned (get_schema w) = Ok s /\
    schema_info_of s = Ok info /\
    messages req = [("system", system_content); ("user", prompt)] /\
    PyStr.contains question prompt = true /\
    PyStr.contains info prompt = true.
Proof.
  intro Hin.
  destruct (generation_request _ _ _ _ _ _ Hin) as (s & info & Hs & Hi & ->).
  exists s, info, (build_prompt question is_retry last_error info).
  repeat split; try assumption; unfold build_prompt;
    destruct (is_retry && PyStr.truthy last_error);
    first [apply repair_prompt_parts | apply first_prompt_parts].
Qed.

(** X6.  Which prompt a generator call sends: the repair prompt, which
    contains the previous error, only on a retry whose error message is
    not empty; the first-attempt prompt on the first attempt and on a retry
    whose error message is absent or empty. *)
Theorem request_prompt_choice question is_retry last_error w req answer :
  In (Create req answer)
     (calls (_generate_with_openai question is_retry last_error w)) ->
  exists s info,
    returned (get_schema w) = Ok s /\
    schema_info_of s = Ok info /\
    (forall e,
        is_retry = true -> last_error = Some e -> e <> EmptyString ->
        req = chat_request (repair_prompt e question info) /\
        PyStr.contains e (repair_prompt e question info) = true) /\
    (is_retry = false \/ last_error = None \/ last_error = Some EmptyString ->
     req = chat_request (first_prompt question info)).
Proof.
  intro Hin.
  destruct (generation_request _ _ _ _ _ _ Hin) as (s & info & Hs & Hi & ->).
  exists s, info. repeat split; try assumption.
  - subst. unfold build_prompt. cbn.
    destruct e; [contradiction|reflexivity].
  - apply repair_prompt_parts.
  - intros [-> | [-> | ->]]; unfold build_prompt;
      [reflexivity | rewrite andb_false_r; reflexivity
       | rewrite andb_false_r; reflexivity].
Qed.

End Prompts.

(** X5 and X6 at a retry of the shop after a missing table. *)
Lemma request_names_question_and_schema_witness :
  In (Create (chat_request
                (repair_prompt "no such table: user" "all users" shop_schema_info))
             (says "SELECT * FROM users"))
     (calls (_generate_with_openai "all users" true (Some "no such table: user")
               (start [] (says "SELECT * FROM users")))) /\
  exists prompt,
    messages (chat_request
                (repair_prompt "no such table: user" "all users" shop_schema_info))
    = [("system", system_content); ("user", prompt)] /\
    PyStr.contains "all users" prompt = true.
Proof.
  assert (Hin : In (Create (chat_request
                (repair_prompt "no such table: user" "all users" shop_schema_info))
             (says "SELECT * FROM users"))
     (calls (_generate_with_openai "all users" true (Some "no such table: user")
               (start [] (says "SELECT * FROM users"))))).
  { vm_compute. right. left. reflexivity. }
  split; [exact Hin|].
  destruct (request_names_question_and_schema _ _ _ _ _ _ Hin)
    as (s & info & prompt & _ & _ & Hm & Hq & _).
  exists prompt. split; assumption.
Defined.

Lemma request_prompt_choice_witness :
  In (Create (chat_request (first_prompt "all users" shop_schema_info))
             (says "SELECT * FROM users"))
     (calls (_generate_with_openai "all users" true (Some EmptyString)
               (start [] (says "SELECT * FROM users")))) /\
  (true = false \/ Some EmptyString = None \/ Some EmptyString = Some EmptyString) /\
  exists info,
    chat_request (first_prompt "all users" shop_schema_info)
    = chat_request (first_prompt "all users" info).
Proof.
  assert (Hin : In (Create (chat_request (first_prompt "all users" shop_schema_info))
             (says "SELECT * FROM users"))
     (calls (_generate_with_openai "all users" true (Some EmptyString)
               (start [] (says "SELECT * FROM users"))))).
  { vm_compute. right. left. reflexivity. }
  split; [exact Hin|]. split; [right; right; reflexivity|].
  destruct (request_prompt_choice _ _ _ _ _ _ Hin)
    as (s & info & _ & _ & _ & Hfirst).
  exists info. apply Hfirst. right; right; reflexivity.
Defined.

(** ** The database methods *)

Section DatabaseMethods.

Context {Conn Service : Type} `{Sqlite3 Conn} `{ChatClient Service}.

Implicit Types w : World Conn Service.

Lemma bind_inv_ok A B (m : M A) (f : A -> M B) w b :
  returned (bind m f w) = Ok b ->
  exists a, returned (m w) = Ok a /\ returned (f a (world (m w))) = Ok b.
Proof.
  unfold bind. destruct (returned (m w)) as [a|e]; cbn [returned after].
  - eauto.
  - discriminate.
Qed.

Lemma item_inv_ok t i w v :
  returned (item t i w) = Ok v -> nth_error t i = Some v.
Proof.
  unfold item. destruct (nth_error t i); cbn; congruence.
Qed.

Lemma cursor_execute_inv_ok sql w cur :
  returned (cursor_execute sql w) = Ok cur ->
  exists c, execute (conn w) sql = (Ok cur, c).
Proof.
  unfold cursor_execute. destruct (execute (conn w) sql) as [r c].
  cbn [returned]. intros ->. eauto.
Qed.

Lemma comprehension_length A B (f : A -> M B) l :
  forall w ys,
    returned (comprehension f l w) = Ok ys -> List.length ys = List.length l.
Proof.
  induction l as [|x rest IH]; intros w ys; cbn [comprehension].
  - intros [= <-]. reflexivity.
  - intro Hb. apply bind_inv_ok in Hb as (y & _ & Hb).
    apply bind_inv_ok in Hb as (ys' & Hys & Hb).
    cbn in Hb. injection Hb as <-. cbn [List.length].
    f_equal. eapply IH. exact Hys.
Qed.

Lemma for_table_shape tables :
  forall schema w s,
    returned (for_table tables schema w) = Ok s ->
    exists s',
      s = (schema ++ s')%list /\
      map (fun r => nth_error r 0) tables = map (fun t => Some (table t)) s' /\
      Forall (fun t => List.length (columns t) = List.length (types t)) s'.
Proof.
  induction tables as [|tbl rest IH]; intros schema w s; cbn [for_table].
  - intros [= <-]. exists []. rewrite app_nil_r. repeat split. constructor.
  - intro Hb.
    apply bind_inv_ok in Hb as (table_name & Hname & Hb).
    apply item_inv_ok in Hname.
    apply bind_inv_ok in Hb as (cur & _ & Hb).
    apply bind_inv_ok in Hb as (names & Hnames & Hb).
    apply bind_inv_ok in Hb as (tys & Htys & Hb).
    apply comprehension_length in Hnames, Htys.
    destruct (IH _ _ _ Hb) as (s' & -> & Hmap & Hall).
    eexists (_ :: s'). rewrite <- app_assoc. repeat split.
    + cbn [map table]. rewrite Hname, Hmap. reflexivity.
    + constructor; [|exact Hall]. cbn [columns types]. congruence.
Qed.

(** X7.  A schema that [get_schema] returns has one entry for each row
    the table query gave, in the same order and named by the row's first
    field, and every entry has as many column names as column types. *)
Theorem get_schema_shape w s :
  returned (get_schema w) = Ok s ->
  exists cur c,
    execute (conn w) "SELECT name FROM sqlite_master WHERE type='table'"
    = (Ok cur, c) /\
    map (fun r => nth_error r 0) (fetchall cur) = map (fun t => Some (table t)) s /\
    Forall (fun t => List.length (columns t) = List.length (types t)) s.
Proof.
  unfold get_schema, traced. cbn [returned]. intro Hb.
  apply bind_inv_ok in Hb as ([] & Hcur & Hb).
  cbn [conn_cursor world] in Hb.
  apply bind_inv_ok in Hb as (cur & Hex & Hb).
  apply cursor_execute_inv_ok in Hex as (c & Hex).
  destruct (for_table_shape _ _ _ _ Hb) as (s' & -> & Hmap & Hall).
  exists cur, c. cbn [app]. auto.
Qed.

(** X8.  A database without tables: when the table query gives no row,
    [get_schema] returns the empty list, and the generator call still
    asks the client, with an empty schema in the prompt. *)
Theorem empty_database_still_asks question is_retry last_error w cur c :
  cursor (conn w) = Ok tt ->
  execute (conn w) "SELECT name FROM sqlite_master WHERE type='table'"
  = (Ok cur, c) ->
  fetchall cur = [] ->
  returned (get_schema w) = Ok [] /\
  exists answer,
    calls (_generate_with_openai question is_retry last_error w) =
    [GetSchema (Ok []);
     Create (chat_request (build_prompt question is_retry last_error EmptyString))
            answer;
     Generate is_retry last_error (answer_of answer)].
Proof.
  intros Hc He Hf.
  assert (Hs : returned (get_schema w) = Ok []).
  { unfold get_schema, traced, bind, conn_cursor, cursor_execute.
    cbn [returned world calls]. rewrite Hc. cbn [returned world calls after conn].
    rewrite He. cbn [returned world calls after]. rewrite Hf. reflexivity. }
  split; [exact Hs|].
  rewrite generate_unfold, Hs. cbn [schema_info_of table_lines PyStr.join].
  cbn zeta. cbn [calls]. eauto.
Qed.

Lemma db_only_try_except A (m : M (Conn:=Conn) (Service:=Service) A) h :
  db_only m -> (forall e, db_only (h e)) -> db_only (try_except m h).
Proof.
  intros Hm Hh w s. unfold try_except. cbn zeta. rewrite !Hm.
  cbn [returned world calls].
  destruct (returned (m w)) as [a|e] eqn:E; [rewrite E; reflexivity|].
  rewrite Hh. reflexivity.
Qed.

Lemma db_only_execute_sql sql : db_only (execute_sql (Service:=Service) sql).
Proof.
  unfold execute_sql. apply db_only_traced. apply db_only_try_except.
  - apply db_only_bind; [apply db_only_conn_cursor|]. intros _.
    apply db_only_bind; [apply db_only_cursor_execute|]. intro cur.
    apply db_only_ret.
  - intro e. apply db_only_ret.
Qed.

Lemma db_only_client A (m : M (Conn:=Conn) (Service:=Service) A) w :
  db_only m -> client (world (m w)) = client w.
Proof.
  intro Hm. specialize (Hm w (client w)).
  replace (with_client w (client w)) with w in Hm by (destruct w; reflexivity).
  apply (f_equal world) in Hm. cbn [world] in Hm.
  rewrite Hm at 1. reflexivity.
Qed.

(** X9.  The two database methods leave the chat client as it was, and
    a generator call leaves the database as its schema fetch left it: it
    runs no statement but the schema queries. *)
Theorem database_and_client_apart question is_retry last_error sql w :
  client (world (get_schema w)) = client w /\
  client (world (execute_sql sql w)) = client w /\
  conn (world (_generate_with_openai question is_retry last_error w))
  = conn (world (get_schema w)).
Proof.
  split; [apply db_only_client, db_only_get_schema|].
  split; [apply db_only_client, db_only_execute_sql|].
  rewrite generate_unfold.
  destruct (returned (get_schema w)) as [s|m]; [|reflexivity].
  destruct (schema_info_of s); reflexivity.
Qed.

(** X10.  When the statement runs and has a result set, [execute_sql]
    returns the column names and the rows exactly as the cursor reports
    them, in their order, and the database is as the statement left it. *)
Theorem execute_sql_keeps_result_set sql w columns rows c :
  cursor (conn w) = Ok tt ->
  execute (conn w) sql = (Ok (Some (columns, rows)), c) ->
  returned (execute_sql sql w) = Ok (true, Some (columns, rows), None) /\
  conn (world (execute_sql sql w)) = c.
Proof.
  intros Hc He.
  unfold execute_sql, traced, try_except, bind, conn_cursor, cursor_execute.
  cbn [returned world calls]. rewrite Hc. cbn [returned world calls after ret].
  rewrite He. cbn [returned world calls after ret conn description fetchall
                     option_map fst].
  destruct columns; split; reflexivity.
Qed.

(** X11.  When the connection is unavailable, [execute_sql] reports the
    failure without running the statement: the world is unchanged. *)
Theorem execute_sql_unavailable sql w m :
  cursor (conn w) = Raise m ->
  execute_sql sql w =
  {| returned := Ok (false, None, Some m); world := w;
     calls := [ExecuteSql sql (false, None, Some m)] |}.
Proof.
  intro Hc.
  unfold execute_sql, traced, try_except, bind, conn_cursor.
  cbn [returned world calls]. rewrite Hc. reflexivity.
Qed.

End DatabaseMethods.

(** ** Runs of the loop *)

Lemma run_from_execution_failed question N rc le t d :
  run_from question N rc le t d ->
  0 <= rc ->
  forall t0 sql results error t1,
    t = (t0 ++ ExecuteSql sql (false, results, error) :: t1)%list ->
    exists m,
      results = None /\ error = Some m /\
      ((t1 = [] /\ d = Failed (Some m) (N + 1)) \/
       (exists s mid r t2,
           t1 = (GetSchema s :: mid ++ Generate true (Some m) r :: t2)%list /\
           count is_generate mid = 0)).
Proof.
  induction 1 as [rc le Hlt | rc le m g t d Hle Hg Hrun IH
                 | rc le sql m g t d Hle Hg Hrun IH
                 | rc le sql results g Hle Hg];
    intros Hrc t0 sql0 res err t1 E.
  - peel.
  - inversion Hg; subst; cbn [app] in E; peel;
      exact (IH ltac:(lia) _ _ _ _ _ eq_refl).
  - inversion Hg; subst; cbn [app] in E; peel;
      try exact (IH ltac:(lia) _ _ _ _ _ eq_refl).
    exists m. repeat split. eapply run_from_next; [|eassumption]. lia.
  - inversion Hg; subst; cbn [app] in E; peel.
Qed.

Lemma run_from_executes_generated question N rc le t d :
  run_from question N rc le t d ->
  forall t0 sql e t1,
    t = (t0 ++ ExecuteSql sql e :: t1)%list ->
    exists t0' is_retry last_error,
      t0 = (t0' ++ [Generate is_retry last_error (Ok sql)])%list.
Proof.
  induction 1 as [rc le Hlt | rc le m g t d Hle Hg Hrun IH
                 | rc le sql m g t d Hle Hg Hrun IH
                 | rc le sql results g Hle Hg];
    intros t0 sql0 e t1 E.
  - peel.
  - inversion Hg; subst; cbn [app] in E; peel;
      destruct (IH _ _ _ _ eq_refl) as (t0' & ir & le' & ->);
      eexists; exists ir, le'; rewrite !app_comm_cons; reflexivity.
  - inversion Hg; subst; cbn [app] in E; peel.
    + match goal with Ha : answer_of _ = Ok _ |- _ => rewrite Ha end.
      eexists [_; _], _, _. reflexivity.
    + destruct (IH _ _ _ _ eq_refl) as (t0' & ir & le' & ->).
      eexists; exists ir, le'. rewrite !app_comm_cons. reflexivity.
  - inversion Hg; subst; cbn [app] in E; peel.
    match goal with Ha : answer_of _ = Ok _ |- _ => rewrite Ha end.
    eexists [_; _], _, _. reflexivity.
Qed.

Lemma run_from_retry_flags question N rc le t d :
  run_from question N rc le t d ->
  forall t0 is_retry last_error g t1,
    t = (t0 ++ Generate is_retry last_error g :: t1)%list ->
    is_retry = (0 <? rc + count is_generate t0) /\
    (count is_generate t0 = 0 -> last_error = le).
Proof.
  induction 1 as [rc le Hlt | rc le m g t d Hle Hg Hrun IH
                 | rc le sql m g t d Hle Hg Hrun IH
                 | rc le sql results g Hle Hg];
    intros t0 ir le0 g0 t1 E.
  - peel.
  - inversion Hg; subst; cbn [app] in E; peel;
      rewrite ?count_cons, ?count_nil; cbn [is_generate];
      try (rewrite Z.add_0_r; split; reflexivity);
      destruct (IH _ _ _ _ _ eq_refl) as [-> _];
      (split; [f_equal; lia
              | match goal with
                | |- context [count is_generate ?x] =>
                    pose proof (count_nonneg is_generate x); lia
                end]).
  - inversion Hg; subst; cbn [app] in E; peel;
      rewrite ?count_cons, ?count_nil; cbn [is_generate];
      try (rewrite Z.add_0_r; split; reflexivity);
      destruct (IH _ _ _ _ _ eq_refl) as [-> _];
      (split; [f_equal; lia
              | match goal with
                | |- context [count is_generate ?x] =>
                    pose proof (count_nonneg is_generate x); lia
                end]).
  - inversion Hg; subst; cbn [app] in E; peel;
      rewrite ?count_cons, ?count_nil; cbn [is_generate];
      rewrite Z.add_0_r; split; reflexivity.
Qed.

Lemma generation_ok_asked question is_retry last_error sql g :
  generation question is_retry last_error (Ok sql) g ->
  count is_create g = 1.
Proof. intro Hg. inversion Hg. reflexivity. Qed.

Lemma run_from_cost question N rc le t d :
  run_from question N rc le t d ->
  count is_execute_sql t <= count is_create t <= count is_generate t.
Proof.
  induction 1 as [rc le Hlt | rc le m g t d Hle Hg Hrun IH
                 | rc le sql m g t d Hle Hg Hrun IH
                 | rc le sql results g Hle Hg];
    try (destruct (generation_counts _ _ _ _ _ Hg) as (_ & G1 & G2 & G3 & _));
    try (pose proof (generation_ok_asked _ _ _ _ _ Hg) as G4);
    try (pose proof (count_nonneg is_create g) as G5);
    rewrite ?count_app, ?count_cons, ?count_nil;
    cbn [is_execute_sql is_create is_generate]; lia.
Qed.

Lemma run_from_result_shape question N rc le t d :
  run_from question N rc le t d ->
  match d with
  | Succeeded _ results _ => exists columns rows, results = Some (columns, rows)
  | Failed error _ => error = le \/ exists m, error = Some m
  end.
Proof.
  induction 1 as [rc le Hlt | rc le m g t d Hle Hg Hrun IH
                 | rc le sql m g t d Hle Hg Hrun IH
                 | rc le sql [columns rows] g Hle Hg].
  - left. reflexivity.
  - destruct d; [exact IH|]. destruct IH as [->|IH]; eauto.
  - destruct d; [exact IH|]. destruct IH as [->|IH]; eauto.
  - eauto.
Qed.

Section RunProperties.

Context {Conn Service : Type} `{Sqlite3 Conn} `{ChatClient Service}.

Implicit Types w : World Conn Service.

(** A run and the shape of its calls, from the value [generate_sql]
    returned. *)
Lemma generate_sql_shape question max_retries w r :
  generate_sql question max_retries w = Some r ->
  exists d, returned r = Ok d /\
            run_from question max_retries 0 None (calls r) d.
Proof.
  intro Hr.
  destruct (generate_sql_run question max_retries w) as (d & w' & t & Hr' & Hrun).
  rewrite Hr' in Hr. injection Hr as <-. exists d. split; [reflexivity|exact Hrun].
Qed.

(** X12.  With a negative budget the loop body never runs: the failure
    dictionary is returned at once with no error and no attempt, no call
    is made and the world is untouched. *)
Theorem negative_budget_returns_at_once question max_retries w :
  max_retries < 0 ->
  generate_sql question max_retries w =
  Some {| returned := Ok (Failed None 0); world := w; calls := [] |}.
Proof.
  intro HN. unfold generate_sql.
  replace (Z.to_nat (max_retries + 1)) with O by lia.
  cbn [while_loop].
  replace (0 <=? max_retries) with false by (symmetry; apply Z.leb_gt; exact HN).
  reflexivity.
Qed.

(** X13.  The message of a failed execution is the [last_error] of the
    next attempt: after an execution that failed with [m], either the
    budget is used up and [m] is the [error] returned, or the next
    generator call is a retry given [m]. *)
Theorem execution_error_is_fed_back question max_retries w r
        t0 sql results error t1 :
  generate_sql question max_retries w = Some r ->
  calls r = (t0 ++ ExecuteSql sql (false, results, error) :: t1)%list ->
  exists m,
    results = None /\ error = Some m /\
    ((t1 = [] /\ returned r = Ok (Failed (Some m) (max_retries + 1))) \/
     (exists s mid g t2,
         t1 = (GetSchema s :: mid ++ Generate true (Some m) g :: t2)%list /\
         count is_generate mid = 0)).
Proof.
  intros Hr Ht.
  destruct (generate_sql_shape _ _ _ _ Hr) as (d & Hd & Hrun).
  destruct (run_from_execution_failed _ _ _ _ _ _ Hrun (Z.le_refl 0)
              _ _ _ _ _ Ht) as (m & -> & -> & Hnext).
  exists m. repeat split. rewrite Hd.
  destruct Hnext as [[-> ->]|Hnext]; auto.
Qed.

(** X14.  The statement executed is the one the generator call of the
    same attempt just returned: every execution comes right after a
    generator call that returned its text. *)
Theorem executed_sql_is_generated question max_retries w r t0 sql e t1 :
  generate_sql question max_retries w = Some r ->
  calls r = (t0 ++ ExecuteSql sql e :: t1)%list ->
  exists t0' is_retry last_error,
    t0 = (t0' ++ [Generate is_retry last_error (Ok sql)])%list.
Proof.
  intros Hr Ht.
  destruct (generate_sql_shape _ _ _ _ Hr) as (d & _ & Hrun).
  exact (run_from_executes_generated _ _ _ _ _ _ Hrun _ _ _ _ Ht).
Qed.

(** X15.  The first generator call of a run is not a retry and is given
    no error; every later one is a retry. *)
Theorem first_call_is_not_a_retry question max_retries w r
        t0 is_retry last_error g t1 :
  generate_sql question max_retries w = Some r ->
  calls r = (t0 ++ Generate is_retry last_error g :: t1)%list ->
  is_retry = (0 <? count is_generate t0) /\
  (count is_generate t0 = 0 -> last_error = None).
Proof.
  intros Hr Ht.
  destruct (generate_sql_shape _ _ _ _ Hr) as (d & _ & Hrun).
  exact (run_from_retry_flags _ _ _ _ _ _ Hrun _ _ _ _ _ Ht).
Qed.

(** X16.  The cost of a run with budget [max_retries >= 0]: the client
    is called at most once per attempt, hence at most [max_retries + 1]
    times, and a statement is executed only after a call to the client. *)
Theorem client_calls_within_budget question max_retries w r :
  0 <= max_retries ->
  generate_sql question max_retries w = Some r ->
  count is_execute_sql (calls r) <= count is_create (calls r) /\
  count is_create (calls r) <= count is_generate (calls r) /\
  count is_generate (calls r) <= max_retries + 1.
Proof.
  intros HN Hr.
  destruct (generate_sql_shape _ _ _ _ Hr) as (d & _ & Hrun).
  pose proof (run_from_cost _ _ _ _ _ _ Hrun) as Hcost.
  destruct (run_from_attempts _ _ _ _ _ _ Hrun) as [Ha _].
  pose proof (run_from_bounds _ _ _ _ _ _ Hrun ltac:(lia)) as Hb.
  destruct d; cbn [attempts] in Ha; lia.
Qed.

(** X17.  With a budget [max_retries >= 0], a success dictionary always
    carries a result set and a failure dictionary always carries an error
    message. *)
Theorem result_is_well_formed question max_retries w r d :
  0 <= max_retries ->
  generate_sql question max_retries w = Some r ->
  returned r = Ok d ->
  match d with
  | Succeeded _ results _ => exists columns rows, results = Some (columns, rows)
  | Failed error _ => exists m, error = Some m
  end.
Proof.
  intros HN Hr Hd.
  destruct (generate_sql_shape _ _ _ _ Hr) as (d' & Hd' & Hrun).
  rewrite Hd in Hd'. injection Hd' as <-.
  inversion Hrun as [rc le Hlt | rc le m g t d0 Hle Hg Hrun'
                    | rc le sql m g t d0 Hle Hg Hrun'
                    | rc le sql results g Hle Hg]; subst.
  - lia.
  - pose proof (run_from_result_shape _ _ _ _ _ _ Hrun') as Hs.
    destruct d; [exact Hs|]. destruct Hs as [->|Hs]; eauto.
  - pose proof (run_from_result_shape _ _ _ _ _ _ Hrun') as Hs.
    destruct d; [exact Hs|]. destruct Hs as [->|Hs]; eauto.
  - destruct results. eauto.
Qed.

(** X18.  [display_results] never raises on a dictionary that
    [generate_sql] returned: it prints six lines and one line for each
    row on success, three lines on failure. *)
Theorem display_of_a_run question max_retries w r d :
  generate_sql question max_retries w = Some r ->
  returned r = Ok d ->
  snd (display_results d) = Ok tt /\
  List.length (fst (display_results d)) =
  match d with
  | Succeeded _ results _ =>
      (6 + List.length (match results with Some (_, rows) => rows | None => [] end))%nat
  | Failed _ _ => 3%nat
  end.
Proof.
  intros Hr Hd.
  destruct (generate_sql_shape _ _ _ _ Hr) as (d' & Hd' & Hrun).
  rewrite Hd in Hd'. injection Hd' as <-.
  pose proof (run_from_result_shape _ _ _ _ _ _ Hrun) as Hs.
  destruct d as [sql results n|error n]; [|split; reflexivity].
  destruct Hs as (columns & rows & ->).
  unfold display_results. cbn [fst snd]. split; [reflexivity|].
  rewrite !length_app. unfold row_lines. rewrite length_map. reflexivity.
Qed.

End RunProperties.

(** X19.  [display_results] raises only on a success dictionary without
    a result set, after printing its first four lines. *)
Theorem display_raises_without_results d m :
  snd (display_results d) = Raise m <->
  (exists sql attempts, d = Succeeded sql None attempts) /\
  m = "cannot unpack non-iterable NoneType object" /\
  List.length (fst (display_results d)) = 4%nat.
Proof.
  split.
  - destruct d as [sql [[columns rows]|] n|error n]; cbn; try discriminate.
    intros [= <-]. eauto.
  - intros ((sql & n & ->) & -> & _). reflexivity.
Qed.

(** ** The further properties at concrete runs *)

Import Vacant.

Lemma get_schema_shape_witness :
  returned (get_schema (start [] (says "SELECT 1;"))) = Ok shop_schema /\
  map (fun t => Some (table t)) shop_schema = [Some (PyStr "users"); Some (PyStr "orders")] /\
  Forall (fun t => List.length (columns t) = List.length (types t)) shop_schema.
Proof.
  assert (Hs : returned (get_schema (start [] (says "SELECT 1;"))) = Ok shop_schema)
    by reflexivity.
  split; [exact Hs|]. split; [reflexivity|].
  destruct (get_schema_shape _ _ Hs) as (cur & c & _ & _ & Hall). exact Hall.
Defined.

Lemma empty_database_still_asks_witness :
  cursor (conn (Vacant.bare (says "SELECT 1;"))) = Ok tt /\
  execute (conn (Vacant.bare (says "SELECT 1;")))
          "SELECT name FROM sqlite_master WHERE type='table'"
  = (Ok (Some (["name"], [])), Vacant.NoTables) /\
  fetchall (Some (["name"], [])) = [] /\
  returned (get_schema (Vacant.bare (says "SELECT 1;"))) = Ok [].
Proof.
  split; [reflexivity|]. split; [reflexivity|]. split; [reflexivity|].
  apply (empty_database_still_asks "all users" false None
           (Vacant.bare (says "SELECT 1;")) (Some (["name"], [])) Vacant.NoTables);
    reflexivity.
Defined.

Lemma execute_sql_keeps_result_set_witness :
  cursor (conn (start [] (says "SELECT 1;"))) = Ok tt /\
  execute (conn (start [] (says "SELECT 1;"))) "SELECT * FROM users"
  = (Ok (Some (["id"; "name"], two_users)), Open two_users) /\
  returned (execute_sql "SELECT * FROM users" (start [] (says "SELECT 1;")))
  = Ok (true, Some (["id"; "name"], two_users), None).
Proof.
  split; [reflexivity|]. split; [reflexivity|].
  eapply execute_sql_keeps_result_set; reflexivity.
Defined.

Lemma execute_sql_unavailable_witness :
  cursor (conn (disconnected (says "SELECT 1;"))) = Raise closed_message /\
  world (execute_sql "SELECT * FROM users" (disconnected (says "SELECT 1;")))
  = disconnected (says "SELECT 1;").
Proof.
  split; [reflexivity|].
  rewrite (execute_sql_unavailable _ _ closed_message); reflexivity.
Defined.

Lemma negative_budget_returns_at_once_witness :
  -2 < 0 /\
  generate_sql "all users" (-2) (start [] (says "SELECT 1;")) =
  Some {| returned := Ok (Failed None 0);
          world := start [] (says "SELECT 1;"); calls := [] |}.
Proof.
  split; [lia|]. apply negative_budget_returns_at_once. lia.
Defined.

Lemma execution_error_is_fed_back_witness :
  exists r t0 t1,
    generate_sql "all users" 3
      (start [says "SELECT * FROM user"] (says "SELECT * FROM users"))
    = Some r /\
    calls r = (t0 ++ ExecuteSql "SELECT * FROM user"
                       (false, None, Some "no such table: user") :: t1)%list /\
    exists s mid g t2,
      t1 = (GetSchema s :: mid
            ++ Generate true (Some "no such table: user") g :: t2)%list.
Proof.
  run_as r Hr.
  exists r, (firstn 3 (calls r)), (skipn 4 (calls r)).
  assert (Ht : calls r =
               (firstn 3 (calls r)
                ++ ExecuteSql "SELECT * FROM user"
                     (false, None, Some "no such table: user")
                   :: skipn 4 (calls r))%list)
    by (rewrite Hc; reflexivity).
  split; [reflexivity|]. split; [exact Ht|].
  destruct (execution_error_is_fed_back _ _ _ _ _ _ _ _ _ Hr Ht)
    as (m & _ & Hm & [[Hnil _]|(s & mid & g & t2 & Hnext & _)]).
  - rewrite Hc in Hnil. discriminate Hnil.
  - injection Hm as <-. eauto.
Defined.

Lemma executed_sql_is_generated_witness :
  exists r t0,
    generate_sql "all users" 3
      (start [says "SELECT * FROM user"] (says "SELECT * FROM users"))
    = Some r /\
    calls r = (t0 ++ ExecuteSql "SELECT * FROM users"
                       (true, Some (["id"; "name"], two_users), None) :: [])%list /\
    exists t0' is_retry last_error,
      t0 = (t0' ++ [Generate is_retry last_error (Ok "SELECT * FROM users")])%list.
Proof.
  run_as r Hr.
  exists r, (firstn 7 (calls r)).
  assert (Ht : calls r =
               (firstn 7 (calls r)
                ++ ExecuteSql "SELECT * FROM users"
                     (true, Some (["id"; "name"], two_users), None) :: [])%list)
    by (rewrite Hc; reflexivity).
  split; [reflexivity|]. split; [exact Ht|].
  exact (executed_sql_is_generated _ _ _ _ _ _ _ _ Hr Ht).
Defined.

Lemma first_call_is_not_a_retry_witness :
  exists r t0 t1,
    generate_sql "all users" 3
      (start [says "SELECT * FROM user"] (says "SELECT * FROM users"))
    = Some r /\
    calls r = (t0 ++ Generate false None (Ok "SELECT * FROM user") :: t1)%list /\
    false = (0 <? count is_generate t0).
Proof.
  run_as r Hr.
  exists r, (firstn 2 (calls r)), (skipn 3 (calls r)).
  assert (Ht : calls r =
               (firstn 2 (calls r)
                ++ Generate false None (Ok "SELECT * FROM user")
                   :: skipn 3 (calls r))%list)
    by (rewrite Hc; reflexivity).
  split; [reflexivity|]. split; [exact Ht|].
  exact (proj1 (first_call_is_not_a_retry _ _ _ _ _ _ _ _ _ Hr Ht)).
Defined.

Lemma client_calls_within_budget_witness :
  0 <= 3 /\
  exists r,
    generate_sql "all users" 3 (start [] (says "SELECT * FROM nonexistent"))
    = Some r /\
    count is_create (calls r) <= count is_generate (calls r) /\
    count is_generate (calls r) <= 3 + 1.
Proof.
  split; [lia|].
  run_as r Hr. exists r. split; [reflexivity|].
  destruct (client_calls_within_budget _ 3 _ _ ltac:(lia) Hr) as (_ & H1 & H2).
  split; assumption.
Defined.

Lemma result_is_well_formed_witness :
  0 <= 3 /\
  exists r n,
    generate_sql "all users" 3 (start [] (says "SELECT * FROM nonexistent"))
    = Some r /\
    returned r = Ok (Failed (Some "no such table: nonexistent") n) /\
    exists m, Some "no such table: nonexistent" = Some m.
Proof.
  split; [lia|].
  run_as r Hr. exists r, 4.
  assert (Hd : returned r = Ok (Failed (Some "no such table: nonexistent") 4))
    by (rewrite Hc; reflexivity).
  split; [reflexivity|]. split; [exact Hd|].
  exact (result_is_well_formed _ 3 _ _ _ ltac:(lia) Hr Hd).
Defined.

Lemma display_of_a_run_witness :
  exists r,
    generate_sql "all users" 3
      (start [says "SELECT * FROM user"] (says "SELECT * FROM users"))
    = Some r /\
    returned r = Ok (Succeeded "SELECT * FROM users"
                       (Some (["id"; "name"], two_users)) 2) /\
    snd (display_results (Succeeded "SELECT * FROM users"
                            (Some (["id"; "name"], two_users)) 2)) = Ok tt /\
    List.length (fst (display_results (Succeeded "SELECT * FROM users"
                            (Some (["id"; "name"], two_users)) 2))) = 8%nat.
Proof.
  run_as r Hr. exists r.
  assert (Hd : returned r = Ok (Succeeded "SELECT * FROM users"
                                  (Some (["id"; "name"], two_users)) 2))
    by (rewrite Hc; reflexivity).
  split; [reflexivity|]. split; [exact Hd|].
  exact (display_of_a_run _ _ _ _ _ Hr Hd).
Defined.

Lemma display_raises_without_results_witness :
  (exists sql attempts, Succeeded "SELECT 1;" None 1 = Succeeded sql None attempts) /\
  snd (display_results (Succeeded "SELECT 1;" None 1))
  = Raise "cannot unpack non-iterable NoneType object".
Proof.
  assert (He : exists sql attempts,
             Succeeded "SELECT 1;" None 1 = Succeeded sql None attempts)
    by (eexists _, _; reflexivity).
  split; [exact He|].
  apply (proj2 (display_raises_without_results _ _)).
  split; [exact He|]. split; reflexivity.
Defined.

Example display_repaired :
  fst (display_results (Succeeded "SELECT * FROM users"
                          (Some (["id"; "name"], two_users)) 2))
  = [newline ++ times "=" 50;
     "SUCCESS after 2 attempts";
     "Generated SQL:";
     "SELECT * FROM users";
     newline ++ "Results:";
     "id" ++ tab ++ "name";
     "1" ++ tab ++ "Ann";
     "2" ++ tab ++ "Bo"].
Proof. reflexivity. Qed.
